(** * tesc: ANSI escape-code console text stylizer

    A shallow embedding of the two revisions of the library,
    [src/tesc.h] (version 0.1.0) and [src/tesc.hpp] (version 2.0.1),
    followed by the properties of the specification proved about them.

    - An output stream is the string of bytes written to it so far.
    - The scoped enumerations [face], [back] and [style] have the fixed
      underlying type [uint8_t]; each is a record around the stored code,
      a [Z] with the conversions to [uint8_t] and [uint16_t] written out.
    - The static data members of [tesc.hpp] are a record [statics]
      threaded through a small state monad. *)

From Stdlib Require Import ZArith Bool List Lia.
From Stdlib Require Import Ascii String DecimalString DecimalPos DecimalZ.
From Stdlib Require Import Permutation.
Import ListNotations.

Local Open Scope string_scope.
Local Open Scope Z_scope.

(** ** Fixed-width integers *)

Definition uint8_t (z : Z) : Z := z mod 256.
Definition uint16_t (z : Z) : Z := z mod 65536.

(** The values an object of the type can hold. *)
Definition is_uint8 (z : Z) : Prop := 0 <= z < 256.
Definition is_uint16 (z : Z) : Prop := 0 <= z < 65536.

(** Contextual conversion of an integer to [bool]. *)
Definition truthy (z : Z) : bool := negb (z =? 0).

(** ** Output streams *)

Definition ostream : Type := string.

(** [operator<<] at [int], on a stream with its default formatting flags:
    the decimal rendering of the value. *)
Definition show_int (n : Z) : string := NilZero.string_of_int (Z.to_int n).

Definition put_str (os : ostream) (s : string) : ostream := (os ++ s)%string.
Definition put_int (os : ostream) (n : Z) : ostream := (os ++ show_int n)%string.

Notation "os << s" := (put_str os s) (at level 41, left associativity).
Notation "os <<# n" := (put_int os n) (at level 41, left associativity).

(** The literal ["\033["]. *)
Definition CSI : string := String "027" "[".

(** ** Built-in arrays of [int] *)

Definition array : Type := list Z.

Definition at_ (a : array) (i : nat) : Z := nth i a 0.

Fixpoint store (a : array) (i : nat) (v : Z) : array :=
  match a, i with
  | [], _ => []
  | _ :: t, O => v :: t
  | h :: t, S j => h :: store t j v
  end.

Notation "a .[ i ]" := (at_ a i) (at level 1, left associativity, format "a .[ i ]").

(** [std::swap(a[i], a[j])] *)
Definition swap (a : array) (i j : nat) : array :=
  store (store a i a.[j]) j a.[i].

(** ** Manipulator parameters (identical in both revisions) *)

Record face : Type := Face { face_code : Z }.
Record back : Type := Back { back_code : Z }.
Record style : Type := Style { style_code : Z }.

Module face_.
Definition none := Face 0.
Definition black := Face 30.
Definition red := Face 31.
Definition green := Face 32.
Definition yellow := Face 33.
Definition blue := Face 34.
Definition magenta := Face 35.
Definition cyan := Face 36.
Definition white := Face 37.
End face_.

Module back_.
Definition none := Back 0.
Definition black := Back 40.
Definition red := Back 41.
Definition green := Back 42.
Definition yellow := Back 43.
Definition blue := Back 44.
Definition magenta := Back 45.
Definition cyan := Back 46.
Definition white := Back 47.
End back_.

Module style_.
Definition normal := Style 0.
Definition bold := Style 1.
Definition italic := Style 2.
Definition underline := Style 4.
End style_.

Definition face_ok (c : face) : Prop := is_uint8 (face_code c).
Definition back_ok (c : back) : Prop := is_uint8 (back_code c).

(** The overloads of [operator |], of [bright] and of the constructors are
    told apart by a suffix naming the parameter types. *)

(** ** The body shared by both [operator <<] on [font]

    Both revisions fill [modif] from their own flag test and then run the
    same statements: the three compare-and-swaps and the output. *)

Definition sort_modif (modif : array) : array :=
  let modif := if modif.[0] >? modif.[1] then swap modif 0 1 else modif in
  if modif.[1] >? modif.[2] then
    let modif := swap modif 1 2 in
    if modif.[0] >? modif.[1] then swap modif 0 1 else modif
  else modif.

Definition put_modif (os : ostream) (modif : array) : ostream :=
  os << CSI <<# modif.[0] << ";" <<# modif.[1] << ";" <<# modif.[2] << "m".

(** The body shared by both [operator <<] on [color], from the two codes
    [clr_1] and [clr_2] each revision extracts in its own way. *)

Definition put_colors (os : ostream) (clr_1 clr_2 : Z) : ostream :=
  let os := os << CSI in
  let os :=
    if truthy clr_1 then
      let os := os <<# clr_1 in
      if truthy clr_2 then os << ";" else os
    else os in
  let os := if truthy clr_2 then os <<# clr_2 else os in
  os << "m".

(** ** Revision 0.1.0: [src/tesc.h] *)

Module tesc_h.

Inductive exception : Type :=
| invalid_argument (what : string).

Inductive result (A : Type) : Type :=
| Return (a : A)
| Throw (e : exception).
Arguments Return {A} a.
Arguments Throw {A} e.

Definition reset (os : ostream) : ostream := os << String "027" "[0m".

(** [operator | (face, back) -> uint16_t] *)
Definition or_face_back (clr_1 : face) (clr_2 : back) : Z :=
    uint16_t (Z.lor (Z.shiftl (uint16_t (face_code clr_1)) 8)
                    (uint8_t (back_code clr_2))).

(** [operator | (back, face) -> uint16_t] *)
Definition or_back_face (clr_1 : back) (clr_2 : face) : Z :=
  or_face_back clr_2 clr_1.

(** [operator | (style, style) -> style] *)
Definition or_style (f_1 f_2 : style) : style :=
    Style (uint8_t (Z.lor (uint8_t (style_code f_1)) (uint8_t (style_code f_2)))).

Definition bright_face (clr : face) : result face :=
    if uint8_t (face_code clr) >=? 90
    then Throw (invalid_argument "Foreground color is already brighten")
    else Return (Face (uint8_t (60 + uint8_t (face_code clr)))).

Definition bright_back (clr : back) : result back :=
    if uint8_t (back_code clr) >=? 100
    then Throw (invalid_argument "Background color is already brighten")
    else Return (Back (uint8_t (60 + uint8_t (back_code clr)))).

(** [class color]: one [uint16_t] member. *)
Record color : Type := Color { _color : Z }.

Definition color_of_code (clr : Z) : color := Color (uint16_t clr).
Definition color_of_face (clr : face) : color :=
  Color (uint16_t (uint8_t (face_code clr))).
Definition color_of_back (clr : back) : color :=
  Color (uint16_t (uint8_t (back_code clr))).

Definition put_color (os : ostream) (decorator : color) : ostream :=
  let clr_1 := Z.shiftr (_color decorator) 8 in
  let clr_2 := uint8_t (_color decorator) in
  put_colors os clr_1 clr_2.

(** [class font]: one [style] member, [style::normal] by default. *)
Record font : Type := Font { _style : style }.

Definition font_default : font := Font style_.normal.
Definition font_of_style (st : style) : font := Font st.

Definition _test (this : font) (st : style) : bool :=
  truthy (Z.land (uint8_t (style_code (_style this))) (uint8_t (style_code st))).

Definition put_font (os : ostream) (styler : font) : ostream :=
  let modif := [ if _test styler style_.bold then 1 else 22;
                 if _test styler style_.italic then 3 else 23;
                 if _test styler style_.underline then 4 else 24 ] in
  put_modif os (sort_modif modif).

End tesc_h.

(** ** Revision 2.0.1: [src/tesc.hpp] *)

Module tesc_hpp.

(** [operator | (face, back) -> std::pair<face, back>] *)
Definition or_face_back (clr_1 : face) (clr_2 : back) : (face * back) := (clr_1, clr_2).

(** [operator | (back, face) -> std::pair<face, back>] *)
Definition or_back_face (clr_1 : back) (clr_2 : face) : (face * back) :=
  or_face_back clr_2 clr_1.

(** [operator | (style, style) -> style] *)
Definition or_style (f_1 f_2 : style) : style :=
    Style (uint8_t (Z.lor (uint8_t (style_code f_1)) (uint8_t (style_code f_2)))).

Definition bright_face (clr : face) : face :=
    if uint8_t (face_code clr) >=? 90 then clr
    else Face (uint8_t (60 + uint8_t (face_code clr))).

Definition bright_back (clr : back) : back :=
    if uint8_t (back_code clr) >=? 100 then clr
    else Back (uint8_t (60 + uint8_t (back_code clr))).

(** The static data members [color::_fg_color], [color::_bg_color] and
    [font::_style]. *)
Record statics : Type := Statics {
  _fg_color : face;
  _bg_color : back;
  _style : style
}.

(** Static fields initialization. *)
Definition initial : statics :=
  Statics face_.none back_.none style_.normal.

(** Code that may read and write the static members. *)
Definition M (A : Type) : Type := statics -> A * statics.
Definition ret {A : Type} (a : A) : M A := fun s => (a, s).
Definition bind {A B : Type} (m : M A) (k : A -> M B) : M B :=
  fun s => let (a, s') := m s in k a s'.

Notation "x <- m ;; k" := (bind m (fun x => k))
  (at level 61, m at next level, right associativity).
Notation "m ;;; k" := (bind m (fun _ => k))
  (at level 61, right associativity).

Definition set_fg_color (clr : face) : M unit :=
  fun s => (tt, Statics clr (_bg_color s) (_style s)).
Definition set_bg_color (clr : back) : M unit :=
  fun s => (tt, Statics (_fg_color s) clr (_style s)).
Definition set_style (st : style) : M unit :=
  fun s => (tt, Statics (_fg_color s) (_bg_color s) st).

(** [class color] has no non-static member. *)
Inductive color : Type := Color.

Definition color_of_pair (clr : face * back) : M color :=
  set_fg_color (fst clr) ;;;
  set_bg_color (snd clr) ;;;
  ret Color.

Definition color_of_face (clr : face) : M color :=
  set_fg_color clr ;;; ret Color.

Definition color_of_back (clr : back) : M color :=
  set_bg_color clr ;;; ret Color.

Definition get_face : M face := fun s => (_fg_color s, s).
Definition get_back : M back := fun s => (_bg_color s, s).

Definition put_color (os : ostream) (decorator : color) : M ostream :=
  f <- get_face ;;
  b <- get_back ;;
  let clr_1 := uint8_t (face_code f) in
  let clr_2 := uint8_t (back_code b) in
  ret (put_colors os clr_1 clr_2).

(** [class font] has no non-static member. *)
Inductive font : Type := Font.

(** [font () = default] *)
Definition font_default : M font := ret Font.

Definition font_of_style (st : style) : M font :=
  set_style st ;;; ret Font.

Definition get_style : M style := fun s => (_style s, s).

Definition test_style (stl : style) : M bool :=
  st <- get_style ;;
  let st_1 := uint8_t (style_code st) in
  let st_2 := uint8_t (style_code stl) in
  if negb (truthy st_1) && negb (truthy st_2) then ret true
  else ret (Z.land st_1 st_2 =? st_2).

Definition put_font (os : ostream) (styler : font) : M ostream :=
  bo <- test_style style_.bold ;;
  it <- test_style style_.italic ;;
  un <- test_style style_.underline ;;
  let modif := [ if bo then 1 else 22;
                 if it then 3 else 23;
                 if un then 4 else 24 ] in
  ret (put_modif os (sort_modif modif)).

Definition reset (os : ostream) : M ostream :=
  ret (os << String "027" "[0m").

End tesc_hpp.

(** ** SGR sequences, as the specification writes them *)

(** The parameters of a sequence: decimal codes separated by [;]. *)
Fixpoint sgr_params (codes : list Z) : string :=
  match codes with
  | [] => ""
  | [c] => show_int c
  | c :: rest => (show_int c ++ ";" ++ sgr_params rest)%string
  end.

(** [ESC [ <params> m] *)
Definition sgr (codes : list Z) : string := (CSI ++ sgr_params codes ++ "m")%string.

(** The color sequence in the words of the specification: prefix, the
    foreground digits unless zero, a separator when both are non-zero, the
    background digits unless zero, suffix. *)
Definition color_sequence (f b : Z) : string :=
  (CSI ++ (if (f =? 0)%Z then "" else show_int f)
       ++ (if (f =? 0)%Z || (b =? 0)%Z then "" else ";")
       ++ (if (b =? 0)%Z then "" else show_int b)
       ++ "m")%string.

(** A style flag in the words of the data model: a bit of the flag set. *)
Definition has_flag (s : style) (bit : Z) : bool := Z.testbit (style_code s) bit.

(** One code per attribute: the set code when the flag is present, the
    cancel code otherwise. *)
Definition attribute_codes (s : style) : list Z :=
  [ if has_flag s 0 then 1 else 22;
    if has_flag s 1 then 3 else 23;
    if has_flag s 2 then 4 else 24 ].

(** Decimal digits, to tell the codes of a sequence from its separators. *)
Definition is_digit (c : ascii) : bool :=
  let n := N_of_ascii c in (48 <=? n)%N && (n <=? 57)%N.

Fixpoint digits_only (s : string) : bool :=
  match s with
  | EmptyString => true
  | String c r => is_digit c && digits_only r
  end.

(** The colors the interface names: [none], the eight enumerators and
    their bright versions. *)
Definition api_face (c : face) : Prop :=
  face_code c = 0 \/ 30 <= face_code c <= 37 \/ 90 <= face_code c <= 97.

Definition api_back (c : back) : Prop :=
  back_code c = 0 \/ 40 <= back_code c <= 47 \/ 100 <= back_code c <= 107.

(** ** Client expressions

    The expression [os << color(f | b)] in each revision. *)
Definition write_color_h (os : ostream) (f : face) (b : back) : ostream :=
  tesc_h.put_color os (tesc_h.color_of_code (tesc_h.or_face_back f b)).

Definition write_color_hpp (os : ostream) (f : face) (b : back)
  : tesc_hpp.M ostream :=
  tesc_hpp.bind (tesc_hpp.color_of_pair (tesc_hpp.or_face_back f b))
                (tesc_hpp.put_color os).

(** The expression [os << font(st)] in tesc.hpp. *)
Definition write_font_hpp (os : ostream) (st : style) : tesc_hpp.M ostream :=
  tesc_hpp.bind (tesc_hpp.font_of_style st) (tesc_hpp.put_font os).

(** The expressions [os << color(f)] and [os << color(b)] in tesc.hpp. *)
Definition write_face_hpp (os : ostream) (f : face) : tesc_hpp.M ostream :=
  tesc_hpp.bind (tesc_hpp.color_of_face f) (tesc_hpp.put_color os).

Definition write_back_hpp (os : ostream) (b : back) : tesc_hpp.M ostream :=
  tesc_hpp.bind (tesc_hpp.color_of_back b) (tesc_hpp.put_color os).

(** The statement [os << color(f) << reset << color(b)] in tesc.hpp, whose
    operands C++17 evaluates from left to right. *)
Definition write_face_reset_back_hpp (os : ostream) (f : face) (b : back)
  : tesc_hpp.M ostream :=
  tesc_hpp.bind (write_face_hpp os f) (fun os1 =>
  tesc_hpp.bind (tesc_hpp.reset os1) (fun os2 =>
  write_back_hpp os2 b)).

(** Two manipulators constructed one after the other, then the first one
    written: [color c1(p1); color c2(p2); os << c1] and the same for
    [font]. *)
Definition write_first_of_two_colors (os : ostream) (p1 p2 : face * back)
  : tesc_hpp.M ostream :=
  tesc_hpp.bind (tesc_hpp.color_of_pair p1) (fun c1 =>
  tesc_hpp.bind (tesc_hpp.color_of_pair p2) (fun _ =>
  tesc_hpp.put_color os c1)).

Definition write_first_of_two_fonts (os : ostream) (s1 s2 : style)
  : tesc_hpp.M ostream :=
  tesc_hpp.bind (tesc_hpp.font_of_style s1) (fun f1 =>
  tesc_hpp.bind (tesc_hpp.font_of_style s2) (fun _ =>
  tesc_hpp.put_font os f1)).

(** * Properties *)

(** ** Fixed-width conversions *)

Lemma uint8_t_id (z : Z) : is_uint8 z -> uint8_t z = z.
Proof. unfold is_uint8, uint8_t. intros H. apply Z.mod_small. exact H. Qed.

Lemma uint16_t_id (z : Z) : is_uint16 z -> uint16_t z = z.
Proof. unfold is_uint16, uint16_t. intros H. apply Z.mod_small. exact H. Qed.

Lemma uint8_is_uint16 (z : Z) : is_uint8 z -> is_uint16 z.
Proof. unfold is_uint8, is_uint16. lia. Qed.

Lemma uint8_t_range (z : Z) : is_uint8 (uint8_t z).
Proof. unfold is_uint8, uint8_t. apply Z.mod_pos_bound. lia. Qed.

Create HintDb tesc.
#[local] Hint Resolve uint8_is_uint16 uint8_t_range : tesc.

(** A byte has no bit at position 8 or above. *)
Lemma uint8_high_bits (b n : Z) : is_uint8 b -> 8 <= n -> Z.testbit b n = false.
Proof.
  intros [Hlo Hhi] Hn.
  destruct (Z.eq_dec b 0) as [-> | Hb].
  - apply Z.bits_0.
  - apply Z.bits_above_log2; [exact Hlo |].
    assert (Z.log2 b < 8) by (apply Z.log2_lt_pow2; simpl; lia).
    lia.
Qed.

(** Packing two bytes with shift and or is positional notation in base 256. *)
Lemma lor_shiftl_8 (f b : Z) :
  is_uint8 b -> Z.lor (Z.shiftl f 8) b = f * 256 + b.
Proof.
  intros Hb.
  rewrite Z.shiftl_mul_pow2 by lia. change (2 ^ 8) with 256.
  assert (Hland : Z.land (f * 256) b = 0).
  { apply Z.bits_inj'. intros n Hn.
    rewrite Z.land_spec, Z.bits_0.
    destruct (Z.lt_ge_cases n 8) as [Hlt | Hge].
    - change 256 with (2 ^ 8). rewrite Z.mul_pow2_bits_low by exact Hlt. reflexivity.
    - rewrite (uint8_high_bits b n Hb Hge). apply andb_false_r. }
  pose proof (Z.add_lor_land (f * 256) b) as Hadd.
  rewrite Hland in Hadd. lia.
Qed.

(** ** Decimal rendering *)

Lemma to_int_proper (z : Z) :
  Z.to_int z <> Decimal.Pos Decimal.Nil /\ Z.to_int z <> Decimal.Neg Decimal.Nil.
Proof.
  destruct z as [| p | p]; simpl; split; try discriminate;
    intros [= H]; exact (Unsigned.to_uint_nonnil p H).
Qed.

Lemma show_int_parse (z : Z) :
  NilZero.int_of_string (show_int z) = Some (Z.to_int z).
Proof.
  unfold show_int. destruct (to_int_proper z) as [Hp Hn].
  apply NilZero.isi; assumption.
Qed.

Lemma show_int_inj (a b : Z) : show_int a = show_int b -> a = b.
Proof.
  intros H. apply DecimalZ.to_int_inj.
  assert (E : Some (Z.to_int a) = Some (Z.to_int b))
    by (rewrite <- !show_int_parse, H; reflexivity).
  congruence.
Qed.

Lemma show_int_nonzero (z : Z) : z <> 0 -> show_int z <> "0".
Proof.
  intros Hz H. apply Hz. apply show_int_inj. exact H.
Qed.

(** ** Streams *)

Lemma append_assoc (a b c : string) : ((a ++ b) ++ c = a ++ (b ++ c))%string.
Proof. induction a as [| x a IH]; simpl; [reflexivity | rewrite IH; reflexivity]. Qed.

Lemma append_nil_r (a : string) : (a ++ "" = a)%string.
Proof. induction a as [| x a IH]; simpl; [reflexivity | rewrite IH; reflexivity]. Qed.

(** Normal form of a stream expression: one right-nested concatenation. *)
Ltac stream_nf :=
  unfold put_str, put_int; simpl;
  repeat rewrite append_assoc; simpl;
  repeat rewrite append_nil_r.

Lemma put_colors_sequence (os : ostream) (f b : Z) :
  put_colors os f b = (os ++ color_sequence f b)%string.
Proof.
  unfold put_colors, color_sequence, truthy.
  destruct (f =? 0), (b =? 0); stream_nf; reflexivity.
Qed.

Lemma color_sequence_sgr (f b : Z) :
  color_sequence f b = sgr (filter truthy [f; b]).
Proof.
  unfold color_sequence, sgr. simpl filter. unfold truthy.
  destruct (f =? 0), (b =? 0); simpl; repeat rewrite append_assoc; reflexivity.
Qed.

Lemma filter_truthy_nonzero (l : list Z) (z : Z) :
  In z (filter truthy l) -> z <> 0.
Proof.
  rewrite filter_In. unfold truthy. intros [_ H] ->. discriminate H.
Qed.

(** ** tesc.h: the packed color code *)

Lemma or_face_back_value (f : face) (b : back) :
  face_ok f -> back_ok b ->
  tesc_h.or_face_back f b = face_code f * 256 + back_code b.
Proof.
  unfold face_ok, back_ok, tesc_h.or_face_back. intros Hf Hb.
  rewrite (uint16_t_id (face_code f)) by auto with tesc.
  rewrite (uint8_t_id (back_code b)) by assumption.
  rewrite lor_shiftl_8 by assumption.
  apply uint16_t_id. unfold is_uint8, is_uint16 in *. lia.
Qed.

Lemma packed_high (f b : Z) :
  is_uint8 b -> Z.shiftr (f * 256 + b) 8 = f.
Proof.
  intros Hb. rewrite Z.shiftr_div_pow2 by lia. change (2 ^ 8) with 256.
  symmetry. apply (Z.div_unique_pos _ _ _ b); [exact Hb | lia].
Qed.

Lemma packed_low (f b : Z) :
  is_uint8 b -> uint8_t (f * 256 + b) = b.
Proof.
  intros Hb. unfold uint8_t.
  symmetry. apply (Z.mod_unique_pos _ _ f); [exact Hb | lia].
Qed.

Lemma packed_range (f b : Z) :
  is_uint8 f -> is_uint8 b -> is_uint16 (f * 256 + b).
Proof. unfold is_uint8, is_uint16. lia. Qed.

Lemma put_color_pair_h (os : ostream) (f : face) (b : back) :
  face_ok f -> back_ok b ->
  tesc_h.put_color os (tesc_h.color_of_code (tesc_h.or_face_back f b))
  = (os ++ color_sequence (face_code f) (back_code b))%string.
Proof.
  intros Hf Hb. unfold tesc_h.put_color, tesc_h.color_of_code. simpl.
  rewrite or_face_back_value by assumption.
  rewrite uint16_t_id by (apply packed_range; assumption).
  rewrite packed_high, packed_low by assumption.
  apply put_colors_sequence.
Qed.

(** The one-argument constructors of [tesc.h] both fill the low byte, so a
    bare foreground is written through the [clr_2] branch. *)
Lemma put_color_face_h (os : ostream) (f : face) :
  face_ok f ->
  tesc_h.put_color os (tesc_h.color_of_face f)
  = (os ++ color_sequence 0 (face_code f))%string.
Proof.
  intros Hf. unfold tesc_h.put_color, tesc_h.color_of_face. simpl.
  rewrite (uint8_t_id (face_code f)) by assumption.
  rewrite uint16_t_id by auto with tesc.
  replace (face_code f) with (0 * 256 + face_code f) at 1 2 by lia.
  rewrite packed_high, packed_low by assumption.
  apply put_colors_sequence.
Qed.

(** ** tesc.hpp: the static cells *)

Lemma put_color_stored_hpp (os : ostream) (g : tesc_hpp.statics) :
  face_ok (tesc_hpp._fg_color g) -> back_ok (tesc_hpp._bg_color g) ->
  tesc_hpp.put_color os tesc_hpp.Color g
  = ((os ++ color_sequence (face_code (tesc_hpp._fg_color g))
                           (back_code (tesc_hpp._bg_color g)))%string, g).
Proof.
  intros Hf Hb. unfold tesc_hpp.put_color, tesc_hpp.bind, tesc_hpp.get_face,
    tesc_hpp.get_back, tesc_hpp.ret.
  rewrite !uint8_t_id by assumption.
  rewrite put_colors_sequence. reflexivity.
Qed.

(** ** The color manipulator *)

Lemma write_color_hpp_sequence (os : ostream) (f : face) (b : back)
      (g : tesc_hpp.statics) :
  face_ok f -> back_ok b ->
  fst (write_color_hpp os f b g)
  = (os ++ color_sequence (face_code f) (back_code b))%string.
Proof.
  intros Hf Hb. unfold write_color_hpp, tesc_hpp.bind at 1.
  destruct (tesc_hpp.color_of_pair (tesc_hpp.or_face_back f b) g) as [c g'] eqn:E.
  unfold tesc_hpp.color_of_pair, tesc_hpp.bind, tesc_hpp.set_fg_color,
    tesc_hpp.set_bg_color, tesc_hpp.ret, tesc_hpp.or_face_back in E.
  simpl in E. injection E as <- <-.
  rewrite put_color_stored_hpp by assumption. reflexivity.
Qed.

(** C1. Writing a color manipulator that holds the foreground code [f] and
    the background code [b] appends the escape prefix, [f] in decimal only
    when [f] is not zero, a [;] only when neither is zero, [b] in decimal
    only when [b] is not zero, and [m].  This holds for [os << color(f | b)]
    in both revisions and for whatever codes the static cells of tesc.hpp
    hold.  The output is the sequence of the non-zero codes among the two,
    none of which prints as ["0"].  In particular [color(none | none)] gives
    the three bytes [ESC [ m], [color(red | none)] gives [ESC[31m],
    [color(red | green)] gives [ESC[31;42m] and [color(none | green)] gives
    [ESC[42m]. *)
Theorem C1_color_output :
  (forall (f : face) (b : back) (os : ostream) (g : tesc_hpp.statics),
      face_ok f -> back_ok b ->
      write_color_h os f b
        = (os ++ color_sequence (face_code f) (back_code b))%string
      /\ fst (write_color_hpp os f b g)
        = (os ++ color_sequence (face_code f) (back_code b))%string
      /\ fst (tesc_hpp.put_color os tesc_hpp.Color (tesc_hpp.Statics f b (tesc_hpp._style g)))
        = (os ++ color_sequence (face_code f) (back_code b))%string
      /\ color_sequence (face_code f) (back_code b)
        = sgr (filter truthy [face_code f; back_code b])
      /\ ~ In "0"%string (map show_int (filter truthy [face_code f; back_code b])))
  /\ (write_color_h "" face_.none back_.none = String "027" "[m"
      /\ write_color_h "" face_.red back_.none = String "027" "[31m"
      /\ write_color_h "" face_.red back_.green = String "027" "[31;42m"
      /\ write_color_h "" face_.none back_.green = String "027" "[42m")
  /\ (fst (write_color_hpp "" face_.none back_.none tesc_hpp.initial) = String "027" "[m"
      /\ fst (write_color_hpp "" face_.red back_.none tesc_hpp.initial) = String "027" "[31m"
      /\ fst (write_color_hpp "" face_.red back_.green tesc_hpp.initial) = String "027" "[31;42m"
      /\ fst (write_color_hpp "" face_.none back_.green tesc_hpp.initial) = String "027" "[42m")
  /\ String.length (write_color_h "" face_.none back_.none) = 3%nat.
Proof.
  split; [| repeat split; reflexivity].
  intros f b os g Hf Hb. repeat split.
  - apply put_color_pair_h; assumption.
  - apply write_color_hpp_sequence; assumption.
  - rewrite put_color_stored_hpp by assumption. reflexivity.
  - apply color_sequence_sgr.
  - intros Hin. apply in_map_iff in Hin. destruct Hin as (z & Hz & Hin).
    apply filter_truthy_nonzero in Hin.
    exact (show_int_nonzero z Hin Hz).
Qed.

Lemma C1_color_output_witness :
  face_ok face_.red /\ back_ok back_.green
  /\ write_color_h "" face_.red back_.green
     = ("" ++ color_sequence (face_code face_.red) (back_code back_.green))%string.
Proof.
  assert (Hf : face_ok face_.red) by (unfold face_ok, is_uint8; simpl; lia).
  assert (Hb : back_ok back_.green) by (unfold back_ok, is_uint8; simpl; lia).
  split; [exact Hf | split; [exact Hb |]].
  exact (proj1 (proj1 C1_color_output face_.red back_.green "" tesc_hpp.initial Hf Hb)).
Defined.

(** ** The three-element sort of [operator <<] on [font] *)

Ltac perm3 :=
  solve [ apply Permutation_refl
        | apply perm_swap
        | apply perm_skip; apply perm_swap
        | apply (Permutation_cons_app [_] [_]); apply perm_swap
        | apply (Permutation_cons_app [_; _] []);
          (apply Permutation_refl || apply perm_swap) ].

Ltac case_gtb :=
  match goal with
  | |- context [?x >? ?y] =>
      is_var x; is_var y;
      rewrite (Z.gtb_ltb x y); destruct (Z.ltb_spec y x); simpl
  end.

(** The compare-and-swap chain sorts any three integers. *)
Lemma sort_modif_sorts (a b c : Z) :
  exists x y z,
    sort_modif [a; b; c] = [x; y; z]
    /\ Permutation [a; b; c] [x; y; z]
    /\ x <= y <= z.
Proof.
  unfold sort_modif, swap, at_; simpl.
  repeat case_gtb;
    do 3 eexists; (split; [reflexivity | split; [perm3 | lia]]).
Qed.

(** ** The flag tests *)

(** Masking a byte with a single bit isolates that bit. *)
Lemma land_bit (s k : Z) :
  0 <= k < 8 ->
  Z.land (uint8_t s) (2 ^ k) = if Z.testbit s k then 2 ^ k else 0.
Proof.
  intros Hk. unfold uint8_t. change 256 with (2 ^ 8).
  apply Z.bits_inj'. intros n Hn.
  rewrite Z.land_spec, Z.pow2_bits_eqb by lia.
  destruct (Z.eqb_spec k n) as [<- | Hne].
  - rewrite Z.mod_pow2_bits_low by lia. rewrite andb_true_r.
    destruct (Z.testbit s k) eqn:E.
    + rewrite Z.pow2_bits_eqb, Z.eqb_refl by lia. reflexivity.
    + rewrite Z.bits_0. reflexivity.
  - rewrite andb_false_r.
    destruct (Z.testbit s k).
    + rewrite Z.pow2_bits_eqb by lia. symmetry. apply Z.eqb_neq. exact Hne.
    + rewrite Z.bits_0. reflexivity.
Qed.

Lemma _test_flag (this : tesc_h.font) :
  tesc_h._test this style_.bold = has_flag (tesc_h._style this) 0
  /\ tesc_h._test this style_.italic = has_flag (tesc_h._style this) 1
  /\ tesc_h._test this style_.underline = has_flag (tesc_h._style this) 2.
Proof.
  unfold tesc_h._test, has_flag.
  change (style_code style_.bold) with 1.
  change (style_code style_.italic) with 2.
  change (style_code style_.underline) with 4.
  change (uint8_t 1) with (2 ^ 0).
  change (uint8_t 2) with (2 ^ 1).
  change (uint8_t 4) with (2 ^ 2).
  rewrite !land_bit by lia.
  repeat split;
    match goal with |- context [Z.testbit ?s ?k] => destruct (Z.testbit s k) end;
    reflexivity.
Qed.

Lemma test_style_flag (g : tesc_hpp.statics) :
  tesc_hpp.test_style style_.bold g = (has_flag (tesc_hpp._style g) 0, g)
  /\ tesc_hpp.test_style style_.italic g = (has_flag (tesc_hpp._style g) 1, g)
  /\ tesc_hpp.test_style style_.underline g = (has_flag (tesc_hpp._style g) 2, g).
Proof.
  unfold tesc_hpp.test_style, tesc_hpp.bind, tesc_hpp.get_style, tesc_hpp.ret, has_flag.
  change (style_code style_.bold) with 1.
  change (style_code style_.italic) with 2.
  change (style_code style_.underline) with 4.
  change (uint8_t 1) with (2 ^ 0).
  change (uint8_t 2) with (2 ^ 1).
  change (uint8_t 4) with (2 ^ 2).
  rewrite !land_bit by lia.
  change (truthy (2 ^ 0)) with true.
  change (truthy (2 ^ 1)) with true.
  change (truthy (2 ^ 2)) with true.
  simpl negb. rewrite !andb_false_r.
  repeat split;
    match goal with |- context [Z.testbit ?s ?k] => destruct (Z.testbit s k) end;
    reflexivity.
Qed.

Lemma put_font_h_codes (os : ostream) (this : tesc_h.font) :
  tesc_h.put_font os this
  = put_modif os (sort_modif (attribute_codes (tesc_h._style this))).
Proof.
  unfold tesc_h.put_font, attribute_codes.
  destruct (_test_flag this) as (-> & -> & ->). reflexivity.
Qed.

Lemma put_font_hpp_codes (os : ostream) (g : tesc_hpp.statics) :
  tesc_hpp.put_font os tesc_hpp.Font g
  = (put_modif os (sort_modif (attribute_codes (tesc_hpp._style g))), g).
Proof.
  unfold tesc_hpp.put_font, tesc_hpp.bind, attribute_codes.
  destruct (test_style_flag g) as (-> & -> & ->). reflexivity.
Qed.

(** The six codes are pairwise distinct, so the sorted triple is strictly
    ascending. *)
Lemma attribute_codes_sorted (s : style) :
  exists a b c,
    sort_modif (attribute_codes s) = [a; b; c]
    /\ Permutation (attribute_codes s) [a; b; c]
    /\ a < b < c.
Proof.
  unfold attribute_codes.
  destruct (sort_modif_sorts (if has_flag s 0 then 1 else 22)
                             (if has_flag s 1 then 3 else 23)
                             (if has_flag s 2 then 4 else 24))
    as (x & y & z & Hs & Hp & Hle).
  exists x, y, z. split; [exact Hs | split; [exact Hp |]].
  assert (Hnd : NoDup [x; y; z]).
  { apply (Permutation_NoDup Hp).
    destruct (has_flag s 0), (has_flag s 1), (has_flag s 2);
      repeat constructor; simpl; lia. }
  inversion Hnd as [| ? ? Hx Hyz]; subst.
  inversion Hyz as [| ? ? Hy _]; subst.
  simpl in Hx, Hy.
  assert (x <> y) by (intros ->; apply Hx; left; reflexivity).
  assert (y <> z) by (intros ->; apply Hy; left; reflexivity).
  lia.
Qed.

(** ** The font manipulator *)

Lemma put_modif_three (os : ostream) (a b c : Z) :
  put_modif os [a; b; c]
  = (os ++ CSI ++ show_int a ++ ";" ++ show_int b ++ ";" ++ show_int c ++ "m")%string.
Proof. unfold put_modif, at_. stream_nf. reflexivity. Qed.

(** C2. For every style value, writing the font manipulator emits exactly
    three codes separated by [;] between the prefix and [m]: the three
    attribute codes (bold 1 or 22, italic 3 or 23, underline 4 or 24) in
    strictly ascending order, in both revisions.  In particular
    [font(normal)] emits [ESC[22;23;24m] and [font(bold | underline)] emits
    [ESC[1;4;23m]. *)
Theorem C2_font_output :
  (forall (s : style) (os : ostream) (g : tesc_hpp.statics),
      exists a b c : Z,
        Permutation (attribute_codes s) [a; b; c]
        /\ a < b < c
        /\ tesc_h.put_font os (tesc_h.font_of_style s)
           = (os ++ CSI ++ show_int a ++ ";" ++ show_int b ++ ";"
                 ++ show_int c ++ "m")%string
        /\ fst (write_font_hpp os s g)
           = (os ++ CSI ++ show_int a ++ ";" ++ show_int b ++ ";"
                 ++ show_int c ++ "m")%string)
  /\ tesc_h.put_font "" (tesc_h.font_of_style style_.normal)
     = String "027" "[22;23;24m"
  /\ tesc_h.put_font "" (tesc_h.font_of_style
                           (tesc_h.or_style style_.bold style_.underline))
     = String "027" "[1;4;23m"
  /\ fst (write_font_hpp "" style_.normal tesc_hpp.initial)
     = String "027" "[22;23;24m"
  /\ fst (write_font_hpp "" (tesc_hpp.or_style style_.bold style_.underline)
                         tesc_hpp.initial)
     = String "027" "[1;4;23m".
Proof.
  split; [| repeat split; reflexivity].
  intros s os g.
  destruct (attribute_codes_sorted s) as (a & b & c & Hs & Hp & Hlt).
  exists a, b, c. repeat split; try assumption; try lia.
  - rewrite put_font_h_codes. simpl tesc_h._style.
    rewrite Hs. apply put_modif_three.
  - change (write_font_hpp os s g)
      with (tesc_hpp.put_font os tesc_hpp.Font
              (tesc_hpp.Statics (tesc_hpp._fg_color g) (tesc_hpp._bg_color g) s)).
    rewrite put_font_hpp_codes. simpl.
    rewrite Hs. apply put_modif_three.
Qed.

(** ** Brightening *)

Ltac bright_unfold :=
  unfold face_ok, back_ok, is_uint8,
    tesc_h.bright_face, tesc_h.bright_back,
    tesc_hpp.bright_face, tesc_hpp.bright_back, uint8_t;
  simpl face_code; simpl back_code.

Ltac bright_below c limit :=
  bright_unfold; intros Hok Hlt;
  rewrite (Z.mod_small c 256) by lia;
  rewrite (Z.mod_small (60 + c) 256) by lia;
  rewrite Z.geb_leb;
  destruct (Z.leb_spec limit c) as [Hge | _]; [lia |];
  rewrite (Z.add_comm 60 c); reflexivity.

Ltac bright_above c limit :=
  bright_unfold; intros Hok Hge;
  rewrite (Z.mod_small c 256) by lia;
  rewrite Z.geb_leb;
  destruct (Z.leb_spec limit c) as [_ | Hlt]; [reflexivity | lia].

Lemma bright_face_h_below (c : Z) :
  face_ok (Face c) -> c < 90 ->
  tesc_h.bright_face (Face c) = tesc_h.Return (Face (c + 60)).
Proof. bright_below c 90. Qed.

Lemma bright_back_h_below (c : Z) :
  back_ok (Back c) -> c < 100 ->
  tesc_h.bright_back (Back c) = tesc_h.Return (Back (c + 60)).
Proof. bright_below c 100. Qed.

Lemma bright_face_hpp_below (c : Z) :
  face_ok (Face c) -> c < 90 ->
  tesc_hpp.bright_face (Face c) = Face (c + 60).
Proof. bright_below c 90. Qed.

Lemma bright_back_hpp_below (c : Z) :
  back_ok (Back c) -> c < 100 ->
  tesc_hpp.bright_back (Back c) = Back (c + 60).
Proof. bright_below c 100. Qed.

Lemma bright_face_h_above (c : Z) :
  face_ok (Face c) -> 90 <= c ->
  tesc_h.bright_face (Face c)
  = tesc_h.Throw (tesc_h.invalid_argument "Foreground color is already brighten").
Proof. bright_above c 90. Qed.

Lemma bright_back_h_above (c : Z) :
  back_ok (Back c) -> 100 <= c ->
  tesc_h.bright_back (Back c)
  = tesc_h.Throw (tesc_h.invalid_argument "Background color is already brighten").
Proof. bright_above c 100. Qed.

Lemma bright_face_hpp_above (c : Z) :
  face_ok (Face c) -> 90 <= c -> tesc_hpp.bright_face (Face c) = Face c.
Proof. bright_above c 90. Qed.

Lemma bright_back_hpp_above (c : Z) :
  back_ok (Back c) -> 100 <= c -> tesc_hpp.bright_back (Back c) = Back c.
Proof. bright_above c 100. Qed.

(** C3. For a standard foreground code (30 to 37) or background code
    (40 to 47), [bright] returns the code plus 60 in both revisions.  For
    an already bright code (foreground at least 90, background at least
    100), [bright] of tesc.h throws [invalid_argument] and [bright] of
    tesc.hpp returns its argument, so that on every standard or bright code
    [bright (bright c) = bright c] in tesc.hpp. *)
Theorem C3_bright :
  (forall c : face, 30 <= face_code c <= 37 ->
      tesc_h.bright_face c = tesc_h.Return (Face (face_code c + 60))
      /\ tesc_hpp.bright_face c = Face (face_code c + 60))
  /\ (forall c : back, 40 <= back_code c <= 47 ->
      tesc_h.bright_back c = tesc_h.Return (Back (back_code c + 60))
      /\ tesc_hpp.bright_back c = Back (back_code c + 60))
  /\ (forall c : face, face_ok c -> 90 <= face_code c ->
      (exists what, tesc_h.bright_face c = tesc_h.Throw (tesc_h.invalid_argument what))
      /\ tesc_hpp.bright_face c = c)
  /\ (forall c : back, back_ok c -> 100 <= back_code c ->
      (exists what, tesc_h.bright_back c = tesc_h.Throw (tesc_h.invalid_argument what))
      /\ tesc_hpp.bright_back c = c)
  /\ (forall c : face, face_ok c ->
      30 <= face_code c <= 37 \/ 90 <= face_code c ->
      tesc_hpp.bright_face (tesc_hpp.bright_face c) = tesc_hpp.bright_face c)
  /\ (forall c : back, back_ok c ->
      40 <= back_code c <= 47 \/ 100 <= back_code c ->
      tesc_hpp.bright_back (tesc_hpp.bright_back c) = tesc_hpp.bright_back c).
Proof.
  repeat apply conj.
  - intros [c] Hc. simpl in Hc |- *.
    assert (Hok : face_ok (Face c)) by (unfold face_ok, is_uint8; simpl; lia).
    split; [apply bright_face_h_below | apply bright_face_hpp_below];
      (exact Hok || lia).
  - intros [c] Hc. simpl in Hc |- *.
    assert (Hok : back_ok (Back c)) by (unfold back_ok, is_uint8; simpl; lia).
    split; [apply bright_back_h_below | apply bright_back_hpp_below];
      (exact Hok || lia).
  - intros [c] Hok Hc. simpl in Hc. split.
    + eexists. apply bright_face_h_above; assumption.
    + apply bright_face_hpp_above; assumption.
  - intros [c] Hok Hc. simpl in Hc. split.
    + eexists. apply bright_back_h_above; assumption.
    + apply bright_back_hpp_above; assumption.
  - intros [c] Hok Hc. simpl in Hc.
    assert (Hr : 0 <= c < 256) by exact Hok.
    destruct (Z.lt_ge_cases c 90) as [Hlt | Hge].
    + rewrite (bright_face_hpp_below c Hok Hlt).
      apply bright_face_hpp_above; [unfold face_ok, is_uint8; simpl |]; lia.
    + rewrite (bright_face_hpp_above c Hok Hge).
      apply bright_face_hpp_above; assumption.
  - intros [c] Hok Hc. simpl in Hc.
    assert (Hr : 0 <= c < 256) by exact Hok.
    destruct (Z.lt_ge_cases c 100) as [Hlt | Hge].
    + rewrite (bright_back_hpp_below c Hok Hlt).
      apply bright_back_hpp_above; [unfold back_ok, is_uint8; simpl |]; lia.
    + rewrite (bright_back_hpp_above c Hok Hge).
      apply bright_back_hpp_above; assumption.
Qed.

Lemma C3_bright_witness :
  (30 <= face_code face_.red <= 37
   /\ tesc_h.bright_face face_.red = tesc_h.Return (Face (face_code face_.red + 60)))
  /\ (face_ok (Face 91) /\ 90 <= face_code (Face 91)
      /\ tesc_hpp.bright_face (Face 91) = Face 91)
  /\ (back_ok back_.green /\ (40 <= back_code back_.green <= 47 \/ 100 <= back_code back_.green)
      /\ tesc_hpp.bright_back (tesc_hpp.bright_back back_.green)
         = tesc_hpp.bright_back back_.green).
Proof.
  assert (H1 : 30 <= face_code face_.red <= 37) by (simpl; lia).
  assert (H2 : face_ok (Face 91)) by (unfold face_ok, is_uint8; simpl; lia).
  assert (H3 : 90 <= face_code (Face 91)) by (simpl; lia).
  assert (H4 : back_ok back_.green) by (unfold back_ok, is_uint8; simpl; lia).
  assert (H5 : 40 <= back_code back_.green <= 47 \/ 100 <= back_code back_.green)
    by (left; simpl; lia).
  destruct C3_bright as (Hf & _ & Hbf & _ & _ & Hib).
  split; [split; [exact H1 | exact (proj1 (Hf face_.red H1))] |].
  split; [split; [exact H2 | split; [exact H3 | exact (proj2 (Hbf (Face 91) H2 H3))]] |].
  split; [exact H4 | split; [exact H5 | exact (Hib back_.green H4 H5)]].
Defined.

(** C4, as the specification states it, fails: [bright] has no case for
    [none] in either revision. *)
Lemma C4_bright_none_counterexample :
  ~ ((exists what, tesc_h.bright_face face_.none
                   = tesc_h.Throw (tesc_h.invalid_argument what))
     /\ tesc_hpp.bright_face face_.none = face_.none).
Proof. intros [_ H]. discriminate H. Qed.

(** C4 (amended). [none] is below both thresholds, so [bright] treats it as
    any other code that is not yet bright: in both revisions the call
    returns the code 60, which is not [none]; tesc.h throws nothing. *)
Theorem C4_bright_none :
  tesc_h.bright_face face_.none = tesc_h.Return (Face 60)
  /\ tesc_h.bright_back back_.none = tesc_h.Return (Back 60)
  /\ tesc_hpp.bright_face face_.none = Face 60
  /\ tesc_hpp.bright_back back_.none = Back 60
  /\ Face 60 <> face_.none
  /\ Back 60 <> back_.none.
Proof. repeat split; (reflexivity || discriminate). Qed.

(** ** The flag test on a zero query *)

(** C5. The flag test that can be asked a zero query, the public
    [font::test_style] of tesc.hpp, reports [true] when the stored style and
    the queried flag are both zero, and leaves the static cells alone: in
    particular testing [style::normal] against a stored [style::normal], as
    in the initial cells, returns [true].  (The test of tesc.h, [_test], is
    private and only ever asked for bold, italic and underline.) *)
Theorem C5_test_zero :
  (forall (g : tesc_hpp.statics) (q : style),
      uint8_t (style_code (tesc_hpp._style g)) = 0 ->
      uint8_t (style_code q) = 0 ->
      tesc_hpp.test_style q g = (true, g))
  /\ (forall g : tesc_hpp.statics,
      tesc_hpp._style g = style_.normal ->
      tesc_hpp.test_style style_.normal g = (true, g))
  /\ fst (tesc_hpp.test_style style_.normal tesc_hpp.initial) = true.
Proof.
  assert (H : forall (g : tesc_hpp.statics) (q : style),
             uint8_t (style_code (tesc_hpp._style g)) = 0 ->
             uint8_t (style_code q) = 0 ->
             tesc_hpp.test_style q g = (true, g)).
  { intros g q Hg Hq.
    unfold tesc_hpp.test_style, tesc_hpp.bind, tesc_hpp.get_style.
    rewrite Hg, Hq. reflexivity. }
  split; [exact H | split; [| reflexivity]].
  intros g Hg. apply H; [rewrite Hg |]; reflexivity.
Qed.

Lemma C5_test_zero_witness :
  uint8_t (style_code (tesc_hpp._style tesc_hpp.initial)) = 0
  /\ uint8_t (style_code style_.normal) = 0
  /\ tesc_hpp.test_style style_.normal tesc_hpp.initial = (true, tesc_hpp.initial).
Proof.
  assert (H1 : uint8_t (style_code (tesc_hpp._style tesc_hpp.initial)) = 0)
    by reflexivity.
  assert (H2 : uint8_t (style_code style_.normal) = 0) by reflexivity.
  split; [exact H1 | split; [exact H2 |]].
  exact (proj1 C5_test_zero tesc_hpp.initial style_.normal H1 H2).
Defined.

(** ** The joiners *)

(** C6. The background-first joiner gives what the foreground-first joiner
    gives on the swapped arguments, in both revisions; in tesc.hpp that is
    the pair of the foreground and the background. *)
Theorem C6_join_commutes :
  forall (f : face) (b : back),
    tesc_h.or_back_face b f = tesc_h.or_face_back f b
    /\ tesc_hpp.or_back_face b f = tesc_hpp.or_face_back f b
    /\ tesc_hpp.or_back_face b f = (f, b).
Proof. intros f b. repeat split. Qed.

(** ** Reset *)

(** C7. [reset] appends exactly the four bytes [ESC [ 0 m] to the stream,
    whatever the static cells hold; written twice, it appends them twice. *)
Theorem C7_reset_output :
  forall (os : ostream) (g g' : tesc_hpp.statics),
    tesc_h.reset os = (os ++ String "027" "[0m")%string
    /\ fst (tesc_hpp.reset os g) = (os ++ String "027" "[0m")%string
    /\ fst (tesc_hpp.reset os g) = fst (tesc_hpp.reset os g')
    /\ tesc_h.reset (tesc_h.reset os)
       = (os ++ String "027" "[0m" ++ String "027" "[0m")%string
    /\ fst (tesc_hpp.bind (tesc_hpp.reset os) tesc_hpp.reset g)
       = (os ++ String "027" "[0m" ++ String "027" "[0m")%string
    /\ String.length (String "027" "[0m") = 4%nat.
Proof.
  intros os g g'.
  unfold tesc_h.reset, tesc_hpp.reset, tesc_hpp.bind, tesc_hpp.ret, put_str.
  simpl fst. rewrite append_assoc. repeat split.
Qed.

(** C8. [reset] of tesc.hpp leaves the three static cells as they were. *)
Theorem C8_reset_frame :
  forall (os : ostream) (g : tesc_hpp.statics),
    snd (tesc_hpp.reset os g) = g
    /\ tesc_hpp._fg_color (snd (tesc_hpp.reset os g)) = tesc_hpp._fg_color g
    /\ tesc_hpp._bg_color (snd (tesc_hpp.reset os g)) = tesc_hpp._bg_color g
    /\ tesc_hpp._style (snd (tesc_hpp.reset os g)) = tesc_hpp._style g.
Proof. intros os g. repeat split. Qed.

(** ** Constructors and the static cells *)

(** C9. In tesc.hpp, constructing a color from a foreground alone writes
    the foreground cell and keeps the background cell; constructing it from
    a background alone writes the background cell and keeps the foreground
    cell; constructing it from a pair writes both.  The style cell is kept
    in all three. *)
Theorem C9_color_constructors :
  forall (f : face) (b : back) (g : tesc_hpp.statics),
    snd (tesc_hpp.color_of_face f g)
      = tesc_hpp.Statics f (tesc_hpp._bg_color g) (tesc_hpp._style g)
    /\ snd (tesc_hpp.color_of_back b g)
      = tesc_hpp.Statics (tesc_hpp._fg_color g) b (tesc_hpp._style g)
    /\ snd (tesc_hpp.color_of_pair (tesc_hpp.or_face_back f b) g)
      = tesc_hpp.Statics f b (tesc_hpp._style g)
    /\ snd (tesc_hpp.color_of_pair (tesc_hpp.or_back_face b f) g)
      = tesc_hpp.Statics f b (tesc_hpp._style g).
Proof. intros f b g. repeat split. Qed.

(** C10. In tesc.hpp the default constructor of [font] leaves the static
    cells as they are, so writing [font()] emits the codes of the style
    stored last: the three cancel codes from the initial cells, but
    [ESC[1;23;24m] once [font(bold)] has been constructed. *)
Theorem C10_font_default :
  (forall g : tesc_hpp.statics,
      tesc_hpp.font_default g = (tesc_hpp.Font, g))
  /\ (forall (os : ostream) (g : tesc_hpp.statics),
      tesc_hpp.bind tesc_hpp.font_default (tesc_hpp.put_font os) g
      = (put_modif os (sort_modif (attribute_codes (tesc_hpp._style g))), g))
  /\ fst (tesc_hpp.bind tesc_hpp.font_default (tesc_hpp.put_font "")
                        tesc_hpp.initial)
     = String "027" "[22;23;24m"
  /\ fst (tesc_hpp.bind (tesc_hpp.font_of_style style_.bold)
            (fun _ => tesc_hpp.bind tesc_hpp.font_default (tesc_hpp.put_font ""))
            tesc_hpp.initial)
     = String "027" "[1;23;24m".
Proof.
  split; [reflexivity | split; [| split; reflexivity]].
  intros os g.
  change (tesc_hpp.bind tesc_hpp.font_default (tesc_hpp.put_font os) g)
    with (tesc_hpp.put_font os tesc_hpp.Font g).
  apply put_font_hpp_codes.
Qed.

(** * Further properties of the code *)

(** ** The style joiner *)

Lemma lor_uint8 (a b : Z) : is_uint8 a -> is_uint8 b -> is_uint8 (Z.lor a b).
Proof.
  unfold is_uint8. intros Ha Hb.
  assert (Hm : Z.lor a b mod 2 ^ 8 = Z.lor a b).
  { rewrite <- Z.land_ones by lia.
    rewrite Z.land_lor_distr_l, !Z.land_ones by lia.
    change (2 ^ 8) with 256. rewrite !Z.mod_small by lia. reflexivity. }
  pose proof (Z.mod_pos_bound (Z.lor a b) (2 ^ 8) ltac:(lia)) as Hr.
  rewrite Hm in Hr. change (2 ^ 8) with 256 in Hr. exact Hr.
Qed.

Lemma lor_uint8_t (a b : Z) :
  uint8_t (Z.lor (uint8_t a) (uint8_t b)) = Z.lor (uint8_t a) (uint8_t b).
Proof. apply uint8_t_id, lor_uint8; apply uint8_t_range. Qed.

Lemma or_style_code (a b : style) :
  style_code (tesc_h.or_style a b)
  = Z.lor (uint8_t (style_code a)) (uint8_t (style_code b)).
Proof. unfold tesc_h.or_style. simpl. apply lor_uint8_t. Qed.

(** X1. [operator |] on styles is commutative and associative in both
    revisions, and its result always fits the underlying [uint8_t]. *)
Theorem X1_or_style_algebra :
  forall a b c : style,
    tesc_h.or_style a b = tesc_h.or_style b a
    /\ tesc_hpp.or_style a b = tesc_hpp.or_style b a
    /\ tesc_h.or_style (tesc_h.or_style a b) c
       = tesc_h.or_style a (tesc_h.or_style b c)
    /\ tesc_hpp.or_style (tesc_hpp.or_style a b) c
       = tesc_hpp.or_style a (tesc_hpp.or_style b c)
    /\ is_uint8 (style_code (tesc_h.or_style a b))
    /\ is_uint8 (style_code (tesc_hpp.or_style a b)).
Proof.
  intros a b c.
  assert (Hc : tesc_h.or_style a b = tesc_h.or_style b a).
  { unfold tesc_h.or_style. rewrite Z.lor_comm. reflexivity. }
  assert (Ha : tesc_h.or_style (tesc_h.or_style a b) c
               = tesc_h.or_style a (tesc_h.or_style b c)).
  { unfold tesc_h.or_style at 1 3. f_equal. f_equal.
    rewrite !or_style_code.
    rewrite (uint8_t_id (Z.lor (uint8_t (style_code a)) (uint8_t (style_code b))))
      by (apply lor_uint8; apply uint8_t_range).
    rewrite (uint8_t_id (Z.lor (uint8_t (style_code b)) (uint8_t (style_code c))))
      by (apply lor_uint8; apply uint8_t_range).
    symmetry. apply Z.lor_assoc. }
  assert (Hr : is_uint8 (style_code (tesc_h.or_style a b))).
  { rewrite or_style_code. apply lor_uint8; apply uint8_t_range. }
  change tesc_hpp.or_style with tesc_h.or_style.
  repeat split; assumption || apply Hr.
Qed.

(** X2. On a style that fits [uint8_t], [style::normal] is the identity of
    the joiner on either side and joining a style with itself changes
    nothing, in both revisions. *)
Theorem X2_or_style_identity :
  forall x : style,
    is_uint8 (style_code x) ->
    tesc_h.or_style x style_.normal = x
    /\ tesc_h.or_style style_.normal x = x
    /\ tesc_h.or_style x x = x
    /\ tesc_hpp.or_style x style_.normal = x
    /\ tesc_hpp.or_style style_.normal x = x
    /\ tesc_hpp.or_style x x = x.
Proof.
  intros [x] Hx. simpl in Hx.
  change tesc_hpp.or_style with tesc_h.or_style.
  unfold tesc_h.or_style. simpl style_code.
  change (uint8_t 0) with 0.
  rewrite (uint8_t_id x Hx), Z.lor_0_r, Z.lor_0_l, Z.lor_diag, (uint8_t_id x Hx).
  repeat split.
Qed.

Lemma X2_or_style_identity_witness :
  is_uint8 (style_code style_.italic)
  /\ tesc_h.or_style style_.italic style_.normal = style_.italic.
Proof.
  assert (H : is_uint8 (style_code style_.italic))
    by (unfold is_uint8; simpl; lia).
  split; [exact H | exact (proj1 (X2_or_style_identity style_.italic H))].
Defined.

(** X3. A flag (any of the eight bits) is present in the join of two
    styles exactly when it is present in one of them. *)
Theorem X3_or_style_flags :
  forall (a b : style) (k : Z),
    0 <= k < 8 ->
    has_flag (tesc_h.or_style a b) k = has_flag a k || has_flag b k
    /\ has_flag (tesc_hpp.or_style a b) k = has_flag a k || has_flag b k.
Proof.
  intros a b k Hk. change tesc_hpp.or_style with tesc_h.or_style.
  assert (H : has_flag (tesc_h.or_style a b) k = has_flag a k || has_flag b k).
  { unfold has_flag. rewrite or_style_code. unfold uint8_t.
    change 256 with (2 ^ 8).
    rewrite Z.lor_spec, !Z.mod_pow2_bits_low by lia. reflexivity. }
  split; exact H.
Qed.

Lemma X3_or_style_flags_witness :
  0 <= 2 < 8
  /\ has_flag (tesc_h.or_style style_.bold style_.underline) 2
     = has_flag style_.bold 2 || has_flag style_.underline 2.
Proof.
  assert (H : 0 <= 2 < 8) by lia.
  split; [exact H |
          exact (proj1 (X3_or_style_flags style_.bold style_.underline 2 H))].
Defined.

(** ** tesc.h: packing a color pair *)

(** X4. For codes that fit [uint8_t], the joined code of tesc.h fits
    [uint16_t], so the constructor stores it whole; [operator <<] reads the
    foreground back from the high byte and the background from the low
    byte; and two pairs with the same joined code are the same pair. *)
Theorem X4_or_face_back_round_trip :
  forall (f f' : face) (b b' : back),
    face_ok f -> back_ok b -> face_ok f' -> back_ok b' ->
    is_uint16 (tesc_h.or_face_back f b)
    /\ tesc_h._color (tesc_h.color_of_code (tesc_h.or_face_back f b))
       = tesc_h.or_face_back f b
    /\ Z.shiftr (tesc_h.or_face_back f b) 8 = face_code f
    /\ uint8_t (tesc_h.or_face_back f b) = back_code b
    /\ (tesc_h.or_face_back f b = tesc_h.or_face_back f' b' ->
        f = f' /\ b = b').
Proof.
  intros f f' b b' Hf Hb Hf' Hb'.
  pose proof (packed_range _ _ Hf Hb) as Hr.
  rewrite !or_face_back_value by assumption.
  split; [exact Hr |].
  split; [apply uint16_t_id; exact Hr |].
  split; [apply packed_high; exact Hb |].
  split; [apply packed_low; exact Hb |].
  intros E. destruct f as [x], f' as [x'], b as [y], b' as [y'].
  unfold face_ok, back_ok, is_uint8 in *. simpl in *.
  assert (x = x') by lia. assert (y = y') by lia.
  subst. split; reflexivity.
Qed.

Lemma X4_or_face_back_round_trip_witness :
  face_ok face_.red /\ back_ok back_.green
  /\ face_ok face_.blue /\ back_ok back_.white
  /\ Z.shiftr (tesc_h.or_face_back face_.red back_.green) 8 = face_code face_.red
  /\ uint8_t (tesc_h.or_face_back face_.red back_.green) = back_code back_.green.
Proof.
  assert (H1 : face_ok face_.red) by (unfold face_ok, is_uint8; simpl; lia).
  assert (H2 : back_ok back_.green) by (unfold back_ok, is_uint8; simpl; lia).
  assert (H3 : face_ok face_.blue) by (unfold face_ok, is_uint8; simpl; lia).
  assert (H4 : back_ok back_.white) by (unfold back_ok, is_uint8; simpl; lia).
  pose proof (X4_or_face_back_round_trip face_.red face_.blue
                back_.green back_.white H1 H2 H3 H4) as (_ & _ & Hhi & Hlo & _).
  repeat (split; [assumption |]). exact Hlo.
Defined.

(** X5. The one-argument constructors of tesc.h both store the code in the
    low byte, the background position: [color(f)] is the object
    [color(none | b)] for the background [b] of the same code, a foreground
    and a background of the same code build the same object, and writing a
    bare color emits the prefix, the code unless it is zero, and [m]. *)
Theorem X5_bare_color_h :
  forall (c : Z) (os : ostream),
    is_uint8 c ->
    tesc_h.color_of_face (Face c)
    = tesc_h.color_of_code (tesc_h.or_face_back face_.none (Back c))
    /\ tesc_h.color_of_back (Back c)
       = tesc_h.color_of_code (tesc_h.or_face_back face_.none (Back c))
    /\ tesc_h.color_of_face (Face c) = tesc_h.color_of_back (Back c)
    /\ tesc_h.put_color os (tesc_h.color_of_face (Face c))
       = (os ++ CSI ++ (if (c =? 0)%Z then "" else show_int c) ++ "m")%string
    /\ tesc_h.put_color os (tesc_h.color_of_back (Back c))
       = (os ++ CSI ++ (if (c =? 0)%Z then "" else show_int c) ++ "m")%string.
Proof.
  intros c os Hc.
  assert (Hnone : face_ok face_.none) by (unfold face_ok, is_uint8; simpl; lia).
  assert (Hb : back_ok (Back c)) by exact Hc.
  assert (Hf : face_ok (Face c)) by exact Hc.
  assert (E : tesc_h.color_of_face (Face c)
              = tesc_h.color_of_code (tesc_h.or_face_back face_.none (Back c))).
  { unfold tesc_h.color_of_face, tesc_h.color_of_code.
    rewrite or_face_back_value by assumption. simpl.
    rewrite (uint8_t_id c Hc). reflexivity. }
  assert (O : tesc_h.put_color os (tesc_h.color_of_face (Face c))
              = (os ++ CSI ++ (if (c =? 0)%Z then "" else show_int c) ++ "m")%string).
  { rewrite (put_color_face_h os (Face c) Hf). reflexivity. }
  repeat split; try exact E; exact O.
Qed.

Lemma X5_bare_color_h_witness :
  is_uint8 31
  /\ tesc_h.put_color "" (tesc_h.color_of_face (Face 31))
     = ("" ++ CSI ++ (if (31 =? 0)%Z then "" else show_int 31) ++ "m")%string.
Proof.
  assert (H : is_uint8 31) by (unfold is_uint8; lia).
  split; [exact H |].
  exact (proj1 (proj2 (proj2 (proj2 (X5_bare_color_h 31 "" H))))).
Defined.

(** ** tesc.hpp: the static cells under composition *)

Lemma bind_eval {A B : Type} (m : tesc_hpp.M A) (k : A -> tesc_hpp.M B)
      (g g' : tesc_hpp.statics) (a : A) :
  m g = (a, g') -> tesc_hpp.bind m k g = k a g'.
Proof. intros E. unfold tesc_hpp.bind. rewrite E. reflexivity. Qed.

(** X6. In tesc.hpp the getters return what the constructors stored last:
    after [color(f | b)] they return [f] and [b]; after [color(f)] the
    foreground is [f] and the background is the one stored before; after
    [color(b)] the other way round; after [font(st)] the style is [st]. *)
Theorem X6_getters_after_constructors :
  forall (f : face) (b : back) (st : style) (g : tesc_hpp.statics),
    fst (tesc_hpp.bind (tesc_hpp.color_of_pair (tesc_hpp.or_face_back f b))
                       (fun _ => tesc_hpp.get_face) g) = f
    /\ fst (tesc_hpp.bind (tesc_hpp.color_of_pair (tesc_hpp.or_face_back f b))
                          (fun _ => tesc_hpp.get_back) g) = b
    /\ fst (tesc_hpp.bind (tesc_hpp.color_of_face f)
                          (fun _ => tesc_hpp.get_face) g) = f
    /\ fst (tesc_hpp.bind (tesc_hpp.color_of_face f)
                          (fun _ => tesc_hpp.get_back) g) = tesc_hpp._bg_color g
    /\ fst (tesc_hpp.bind (tesc_hpp.color_of_back b)
                          (fun _ => tesc_hpp.get_back) g) = b
    /\ fst (tesc_hpp.bind (tesc_hpp.color_of_back b)
                          (fun _ => tesc_hpp.get_face) g) = tesc_hpp._fg_color g
    /\ fst (tesc_hpp.bind (tesc_hpp.font_of_style st)
                          (fun _ => tesc_hpp.get_style) g) = st.
Proof. intros f b st g. repeat split. Qed.

(** X7. In tesc.hpp neither writing a manipulator nor a getter nor the flag
    test changes a static cell: only the converting constructors do. *)
Theorem X7_readers_keep_statics :
  forall (os : ostream) (c : tesc_hpp.color) (ft : tesc_hpp.font)
         (q : style) (g : tesc_hpp.statics),
    snd (tesc_hpp.put_color os c g) = g
    /\ snd (tesc_hpp.put_font os ft g) = g
    /\ snd (tesc_hpp.test_style q g) = g
    /\ snd (tesc_hpp.get_face g) = g
    /\ snd (tesc_hpp.get_back g) = g
    /\ snd (tesc_hpp.get_style g) = g
    /\ snd (tesc_hpp.font_default g) = g.
Proof.
  intros os c ft q g. repeat split.
  - destruct ft. rewrite put_font_hpp_codes. reflexivity.
  - unfold tesc_hpp.test_style, tesc_hpp.bind, tesc_hpp.get_style.
    destruct (negb _ && negb _); reflexivity.
Qed.

(** X8. In tesc.hpp a manipulator object holds nothing of its own: when two
    colors (or two fonts) are constructed and the first is written, the
    bytes are those of the second, the one constructed last. *)
Theorem X8_last_constructed_wins :
  forall (os : ostream) (f1 f2 : face) (b1 b2 : back) (s1 s2 : style)
         (g : tesc_hpp.statics),
    face_ok f2 -> back_ok b2 ->
    fst (write_first_of_two_colors os (tesc_hpp.or_face_back f1 b1)
                                      (tesc_hpp.or_face_back f2 b2) g)
      = (os ++ color_sequence (face_code f2) (back_code b2))%string
    /\ fst (write_first_of_two_colors os (tesc_hpp.or_face_back f1 b1)
                                         (tesc_hpp.or_face_back f2 b2) g)
       = fst (write_color_hpp os f2 b2 g)
    /\ fst (write_first_of_two_fonts os s1 s2 g)
       = fst (write_font_hpp os s2 g).
Proof.
  intros os f1 f2 b1 b2 s1 s2 g Hf Hb.
  assert (E : fst (write_first_of_two_colors os (tesc_hpp.or_face_back f1 b1)
                                      (tesc_hpp.or_face_back f2 b2) g)
      = (os ++ color_sequence (face_code f2) (back_code b2))%string).
  { change (write_first_of_two_colors os (tesc_hpp.or_face_back f1 b1)
              (tesc_hpp.or_face_back f2 b2) g)
      with (tesc_hpp.put_color os tesc_hpp.Color
              (tesc_hpp.Statics f2 b2 (tesc_hpp._style g))).
    rewrite put_color_stored_hpp by assumption. reflexivity. }
  split; [exact E | split].
  - rewrite E. symmetry. apply write_color_hpp_sequence; assumption.
  - reflexivity.
Qed.

Lemma X8_last_constructed_wins_witness :
  face_ok face_.blue /\ back_ok back_.white
  /\ fst (write_first_of_two_colors "" (tesc_hpp.or_face_back face_.red back_.green)
            (tesc_hpp.or_face_back face_.blue back_.white) tesc_hpp.initial)
     = ("" ++ color_sequence (face_code face_.blue) (back_code back_.white))%string.
Proof.
  assert (H1 : face_ok face_.blue) by (unfold face_ok, is_uint8; simpl; lia).
  assert (H2 : back_ok back_.white) by (unfold back_ok, is_uint8; simpl; lia).
  split; [exact H1 | split; [exact H2 |]].
  exact (proj1 (X8_last_constructed_wins "" face_.red face_.blue
                  back_.green back_.white style_.normal style_.normal
                  tesc_hpp.initial H1 H2)).
Defined.

(** X9. In tesc.hpp a color constructed from one component is written
    together with the other component left in the static cell: [color(b)]
    emits the stored foreground before [b], [color(f)] emits the stored
    background after [f], and [color(f)] followed by [color(b)] emits both
    [f] and [b]. *)
Theorem X9_bare_color_hpp :
  forall (os : ostream) (f : face) (b : back) (g : tesc_hpp.statics),
    face_ok f -> back_ok b ->
    face_ok (tesc_hpp._fg_color g) -> back_ok (tesc_hpp._bg_color g) ->
    fst (write_face_hpp os f g)
      = (os ++ color_sequence (face_code f)
                              (back_code (tesc_hpp._bg_color g)))%string
    /\ fst (write_back_hpp os b g)
       = (os ++ color_sequence (face_code (tesc_hpp._fg_color g))
                               (back_code b))%string
    /\ fst (tesc_hpp.bind (tesc_hpp.color_of_face f)
                          (fun _ => write_back_hpp os b) g)
       = (os ++ color_sequence (face_code f) (back_code b))%string.
Proof.
  intros os f b g Hf Hb Hgf Hgb. repeat split.
  - change (write_face_hpp os f g)
      with (tesc_hpp.put_color os tesc_hpp.Color
              (tesc_hpp.Statics f (tesc_hpp._bg_color g) (tesc_hpp._style g))).
    rewrite put_color_stored_hpp by assumption. reflexivity.
  - change (write_back_hpp os b g)
      with (tesc_hpp.put_color os tesc_hpp.Color
              (tesc_hpp.Statics (tesc_hpp._fg_color g) b (tesc_hpp._style g))).
    rewrite put_color_stored_hpp by assumption. reflexivity.
  - change (tesc_hpp.bind (tesc_hpp.color_of_face f)
              (fun _ => write_back_hpp os b) g)
      with (tesc_hpp.put_color os tesc_hpp.Color
              (tesc_hpp.Statics f b (tesc_hpp._style g))).
    rewrite put_color_stored_hpp by assumption. reflexivity.
Qed.

Lemma X9_bare_color_hpp_witness :
  face_ok face_.red /\ back_ok back_.green
  /\ face_ok (tesc_hpp._fg_color tesc_hpp.initial)
  /\ back_ok (tesc_hpp._bg_color tesc_hpp.initial)
  /\ fst (tesc_hpp.bind (tesc_hpp.color_of_face face_.red)
                        (fun _ => write_back_hpp "" back_.green) tesc_hpp.initial)
     = ("" ++ color_sequence (face_code face_.red) (back_code back_.green))%string.
Proof.
  assert (H1 : face_ok face_.red) by (unfold face_ok, is_uint8; simpl; lia).
  assert (H2 : back_ok back_.green) by (unfold back_ok, is_uint8; simpl; lia).
  assert (H3 : face_ok (tesc_hpp._fg_color tesc_hpp.initial))
    by (unfold face_ok, is_uint8; simpl; lia).
  assert (H4 : back_ok (tesc_hpp._bg_color tesc_hpp.initial))
    by (unfold back_ok, is_uint8; simpl; lia).
  repeat (split; [assumption |]).
  exact (proj2 (proj2 (X9_bare_color_hpp "" face_.red back_.green
                         tesc_hpp.initial H1 H2 H3 H4))).
Defined.

(** X10. [reset] does not make tesc.hpp forget the colors: in
    [os << color(f) << reset << color(b)] the color written after the reset
    carries the foreground [f] again. *)
Theorem X10_reset_keeps_colors :
  forall (os : ostream) (f : face) (b : back) (g : tesc_hpp.statics),
    face_ok f -> back_ok b -> back_ok (tesc_hpp._bg_color g) ->
    write_face_reset_back_hpp os f b g
    = ((os ++ color_sequence (face_code f) (back_code (tesc_hpp._bg_color g))
           ++ String "027" "[0m"
           ++ color_sequence (face_code f) (back_code b))%string,
       tesc_hpp.Statics f b (tesc_hpp._style g)).
Proof.
  intros os f b g Hf Hb Hgb.
  unfold write_face_reset_back_hpp.
  assert (E1 : write_face_hpp os f g
               = ((os ++ color_sequence (face_code f)
                             (back_code (tesc_hpp._bg_color g)))%string,
                  tesc_hpp.Statics f (tesc_hpp._bg_color g) (tesc_hpp._style g))).
  { change (write_face_hpp os f g)
      with (tesc_hpp.put_color os tesc_hpp.Color
              (tesc_hpp.Statics f (tesc_hpp._bg_color g) (tesc_hpp._style g))).
    rewrite put_color_stored_hpp by assumption. reflexivity. }
  rewrite (bind_eval _ _ _ _ _ E1).
  change (tesc_hpp.bind (tesc_hpp.reset ?o) ?k ?g0)
    with (k (o << String "027" "[0m") g0).
  cbv beta.
  change (write_back_hpp ?o b (tesc_hpp.Statics f ?x ?y))
    with (tesc_hpp.put_color o tesc_hpp.Color (tesc_hpp.Statics f b y)).
  rewrite put_color_stored_hpp by assumption.
  unfold put_str. simpl tesc_hpp._fg_color. simpl tesc_hpp._bg_color.
  simpl tesc_hpp._style. rewrite !append_assoc. reflexivity.
Qed.

Lemma X10_reset_keeps_colors_witness :
  face_ok face_.red /\ back_ok back_.green
  /\ back_ok (tesc_hpp._bg_color tesc_hpp.initial)
  /\ fst (write_face_reset_back_hpp "" face_.red back_.green tesc_hpp.initial)
     = String "027" ("[31m" ++ String "027" ("[0m" ++ String "027" "[31;42m")).
Proof.
  assert (H1 : face_ok face_.red) by (unfold face_ok, is_uint8; simpl; lia).
  assert (H2 : back_ok back_.green) by (unfold back_ok, is_uint8; simpl; lia).
  assert (H3 : back_ok (tesc_hpp._bg_color tesc_hpp.initial))
    by (unfold back_ok, is_uint8; simpl; lia).
  repeat (split; [assumption |]).
  rewrite (X10_reset_keeps_colors "" face_.red back_.green tesc_hpp.initial H1 H2 H3).
  reflexivity.
Defined.

(** ** The two flag tests on arbitrary queries *)

Lemma land_subset (a b : Z) :
  Z.land (uint8_t a) (uint8_t b) = uint8_t b
  <-> (forall k, 0 <= k < 8 -> Z.testbit b k = true -> Z.testbit a k = true).
Proof.
  unfold uint8_t. change 256 with (2 ^ 8). split.
  - intros E k Hk Hb.
    assert (T : Z.testbit (Z.land (a mod 2 ^ 8) (b mod 2 ^ 8)) k
                = Z.testbit (b mod 2 ^ 8) k) by (rewrite E; reflexivity).
    rewrite Z.land_spec, !Z.mod_pow2_bits_low in T by lia.
    rewrite Hb, andb_true_r in T. exact T.
  - intros H. apply Z.bits_inj'. intros n Hn.
    rewrite Z.land_spec.
    destruct (Z.lt_ge_cases n 8) as [Hlt | Hge].
    + rewrite !Z.mod_pow2_bits_low by lia.
      destruct (Z.testbit b n) eqn:Eb.
      * rewrite (H n (conj Hn Hlt) Eb). reflexivity.
      * apply andb_false_r.
    + rewrite !Z.mod_pow2_bits_high by lia. reflexivity.
Qed.

(** A non-zero byte has one of its eight bits set. *)
Lemma uint8_nonzero_bit (x : Z) :
  is_uint8 x -> x <> 0 -> exists k, 0 <= k < 8 /\ Z.testbit x k = true.
Proof.
  intros Hx Hnz.
  destruct (Z.testbit x 0) eqn:B0; [exists 0; split; [lia | exact B0] |].
  destruct (Z.testbit x 1) eqn:B1; [exists 1; split; [lia | exact B1] |].
  destruct (Z.testbit x 2) eqn:B2; [exists 2; split; [lia | exact B2] |].
  destruct (Z.testbit x 3) eqn:B3; [exists 3; split; [lia | exact B3] |].
  destruct (Z.testbit x 4) eqn:B4; [exists 4; split; [lia | exact B4] |].
  destruct (Z.testbit x 5) eqn:B5; [exists 5; split; [lia | exact B5] |].
  destruct (Z.testbit x 6) eqn:B6; [exists 6; split; [lia | exact B6] |].
  destruct (Z.testbit x 7) eqn:B7; [exists 7; split; [lia | exact B7] |].
  exfalso. apply Hnz. apply Z.bits_inj'. intros n Hn. rewrite Z.bits_0.
  destruct (Z.lt_ge_cases n 8) as [Hlt | Hge];
    [| apply uint8_high_bits; assumption].
  assert (Hc : (n = 7 \/ n = 6) \/ (n = 5 \/ n = 4) \/ (n = 3 \/ n = 2)
               \/ (n = 1 \/ n = 0)) by lia.
  destruct Hc as [[-> | ->] | [[-> | ->] | [[-> | ->] | [-> | ->]]]];
    assumption.
Qed.

Lemma land_uint8 (a b : Z) : is_uint8 a -> is_uint8 b -> is_uint8 (Z.land a b).
Proof.
  unfold is_uint8. intros Ha Hb.
  assert (Hm : Z.land a b mod 2 ^ 8 = Z.land a b).
  { rewrite <- Z.land_ones by lia.
    rewrite <- Z.land_assoc, Z.land_ones by lia.
    change (2 ^ 8) with 256. rewrite (Z.mod_small b) by lia. reflexivity. }
  pose proof (Z.mod_pos_bound (Z.land a b) (2 ^ 8) ltac:(lia)) as Hr.
  rewrite Hm in Hr. change (2 ^ 8) with 256 in Hr. exact Hr.
Qed.

(** The branch of [test_style] for two zeros returns what the comparison
    of the other branch returns. *)
Lemma test_style_eval (q : style) (g : tesc_hpp.statics) :
  tesc_hpp.test_style q g
  = (Z.land (uint8_t (style_code (tesc_hpp._style g))) (uint8_t (style_code q))
       =? uint8_t (style_code q), g).
Proof.
  unfold tesc_hpp.test_style, tesc_hpp.bind, tesc_hpp.get_style,
    tesc_hpp.ret, truthy.
  destruct (Z.eqb_spec (uint8_t (style_code (tesc_hpp._style g))) 0) as [-> | _];
    [| reflexivity].
  destruct (Z.eqb_spec (uint8_t (style_code q)) 0) as [-> | _]; reflexivity.
Qed.

(** X11. [font::test_style] of tesc.hpp is a containment test: it reports
    [true] exactly when every flag of the query is in the stored style.
    Its branch for two zeros is covered by the comparison of the other
    branch, and a query for [style::normal] is answered [true] whatever is
    stored. *)
Theorem X11_test_style_contains :
  forall (q : style) (g : tesc_hpp.statics),
    tesc_hpp.test_style q g
    = (Z.land (uint8_t (style_code (tesc_hpp._style g))) (uint8_t (style_code q))
         =? uint8_t (style_code q), g)
    /\ (fst (tesc_hpp.test_style q g) = true
        <-> (forall k, 0 <= k < 8 ->
               has_flag q k = true -> has_flag (tesc_hpp._style g) k = true))
    /\ fst (tesc_hpp.test_style style_.normal g) = true.
Proof.
  intros q g.
  pose proof (test_style_eval q g) as E.
  split; [exact E | split].
  - rewrite E. simpl fst. rewrite Z.eqb_eq. unfold has_flag. apply land_subset.
  - unfold tesc_hpp.test_style, tesc_hpp.bind, tesc_hpp.get_style,
      tesc_hpp.ret, truthy.
    change (uint8_t (style_code style_.normal)) with 0.
    rewrite Z.land_0_r.
    destruct (negb _ && negb _); reflexivity.
Qed.

(** X12. [font::_test] of tesc.h is an overlap test: it reports [true]
    exactly when the query and the stored style share a flag, so a query
    for [style::normal] is answered [false] whatever is stored.  A
    non-empty query that tesc.hpp finds contained, tesc.h finds too; the
    converse fails on a query of two flags of which one is stored. *)
Theorem X12_test_overlaps :
  forall (this : tesc_h.font) (q : style),
    (tesc_h._test this q = true
     <-> exists k, 0 <= k < 8
                   /\ has_flag (tesc_h._style this) k = true
                   /\ has_flag q k = true)
    /\ tesc_h._test this style_.normal = false
    /\ (forall g : tesc_hpp.statics,
           tesc_hpp._style g = tesc_h._style this ->
           uint8_t (style_code q) <> 0 ->
           fst (tesc_hpp.test_style q g) = true ->
           tesc_h._test this q = true)
    /\ (tesc_h._test (tesc_h.font_of_style style_.bold)
                     (tesc_h.or_style style_.bold style_.italic) = true
        /\ fst (tesc_hpp.test_style
                  (tesc_hpp.or_style style_.bold style_.italic)
                  (tesc_hpp.Statics face_.none back_.none style_.bold)) = false).
Proof.
  intros [s] q. simpl tesc_h._style.
  split; [| split; [| split; [| split; reflexivity]]].
  - unfold tesc_h._test, truthy, has_flag. simpl tesc_h._style.
    set (x := Z.land (uint8_t (style_code s)) (uint8_t (style_code q))).
    assert (Hx : is_uint8 x).
    { unfold x. apply land_uint8; apply uint8_t_range. }
    assert (Hbit : forall k, 0 <= k < 8 ->
              Z.testbit x k = Z.testbit (style_code s) k && Z.testbit (style_code q) k).
    { intros k Hk. unfold x, uint8_t. change 256 with (2 ^ 8).
      rewrite Z.land_spec, !Z.mod_pow2_bits_low by lia. reflexivity. }
    split.
    + intros T. destruct (Z.eqb_spec x 0) as [E0 | Hnz]; [discriminate T |].
      destruct (uint8_nonzero_bit x Hx Hnz) as (k & Hk & Hb).
      exists k. rewrite (Hbit k Hk) in Hb. apply andb_true_iff in Hb.
      split; [exact Hk | exact Hb].
    + intros (k & Hk & Hs & Hq).
      destruct (Z.eqb_spec x 0) as [E0 | Hnz]; [| reflexivity].
      exfalso. pose proof (Hbit k Hk) as Hb.
      rewrite Hs, Hq, E0, Z.bits_0 in Hb. discriminate Hb.
  - unfold tesc_h._test. simpl tesc_h._style.
    change (uint8_t (style_code style_.normal)) with 0.
    rewrite Z.land_0_r. reflexivity.
  - intros g Hg Hq T.
    rewrite (test_style_eval q g) in T. simpl fst in T. apply Z.eqb_eq in T.
    unfold tesc_h._test, truthy. simpl tesc_h._style.
    rewrite Hg in T. simpl in T. rewrite T.
    destruct (Z.eqb_spec (uint8_t (style_code q)) 0) as [E0 | _];
      [contradiction | reflexivity].
Qed.

(** ** [bright] on every code *)

(** X13. On every foreground code that fits [uint8_t], [bright] of tesc.h
    throws exactly when the code is at least 90 and otherwise returns the
    code plus 60; whenever it returns, [bright] of tesc.hpp returns the
    same color.  The color tesc.hpp returns always fits [uint8_t] and is
    never [none].  The same holds for backgrounds with the threshold 100. *)
Theorem X13_bright_total :
  (forall c : face, face_ok c ->
      ((exists e, tesc_h.bright_face c = tesc_h.Throw e) <-> 90 <= face_code c)
      /\ (face_code c < 90 ->
          tesc_h.bright_face c = tesc_h.Return (Face (face_code c + 60)))
      /\ (forall r, tesc_h.bright_face c = tesc_h.Return r ->
                    tesc_hpp.bright_face c = r)
      /\ face_ok (tesc_hpp.bright_face c)
      /\ 60 <= face_code (tesc_hpp.bright_face c))
  /\ (forall c : back, back_ok c ->
      ((exists e, tesc_h.bright_back c = tesc_h.Throw e) <-> 100 <= back_code c)
      /\ (back_code c < 100 ->
          tesc_h.bright_back c = tesc_h.Return (Back (back_code c + 60)))
      /\ (forall r, tesc_h.bright_back c = tesc_h.Return r ->
                    tesc_hpp.bright_back c = r)
      /\ back_ok (tesc_hpp.bright_back c)
      /\ 60 <= back_code (tesc_hpp.bright_back c)).
Proof.
  split.
  - intros [c] Hok. assert (Hr : 0 <= c < 256) by exact Hok. simpl face_code.
    destruct (Z.lt_ge_cases c 90) as [Hlt | Hge].
    + rewrite (bright_face_h_below c Hok Hlt), (bright_face_hpp_below c Hok Hlt).
      repeat split.
      * intros [e He]. discriminate He.
      * intros Hge. lia.
      * intros r [= <-]. reflexivity.
      * simpl. lia.
      * simpl. lia.
      * simpl. lia.
    + rewrite (bright_face_h_above c Hok Hge), (bright_face_hpp_above c Hok Hge).
      repeat split.
      * intros _. exact Hge.
      * intros _. eexists. reflexivity.
      * intros Hlt. lia.
      * intros r Hr'. discriminate Hr'.
      * simpl. lia.
      * simpl. lia.
      * simpl. lia.
  - intros [c] Hok. assert (Hr : 0 <= c < 256) by exact Hok. simpl back_code.
    destruct (Z.lt_ge_cases c 100) as [Hlt | Hge].
    + rewrite (bright_back_h_below c Hok Hlt), (bright_back_hpp_below c Hok Hlt).
      repeat split.
      * intros [e He]. discriminate He.
      * intros Hge. lia.
      * intros r [= <-]. reflexivity.
      * simpl. lia.
      * simpl. lia.
      * simpl. lia.
    + rewrite (bright_back_h_above c Hok Hge), (bright_back_hpp_above c Hok Hge).
      repeat split.
      * intros _. exact Hge.
      * intros _. eexists. reflexivity.
      * intros Hlt. lia.
      * intros r Hr'. discriminate Hr'.
      * simpl. lia.
      * simpl. lia.
      * simpl. lia.
Qed.

Lemma X13_bright_total_witness :
  face_ok (Face 50)
  /\ face_code (Face 50) < 90
  /\ tesc_h.bright_face (Face 50) = tesc_h.Return (Face (face_code (Face 50) + 60))
  /\ back_ok (Back 200)
  /\ 60 <= back_code (tesc_hpp.bright_back (Back 200)).
Proof.
  assert (H1 : face_ok (Face 50)) by (unfold face_ok, is_uint8; simpl; lia).
  assert (H2 : face_code (Face 50) < 90) by (simpl; lia).
  assert (H3 : back_ok (Back 200)) by (unfold back_ok, is_uint8; simpl; lia).
  destruct X13_bright_total as [Hf Hb].
  destruct (Hf (Face 50) H1) as (_ & Hlow & _).
  destruct (Hb (Back 200) H3) as (_ & _ & _ & _ & Hge).
  split; [exact H1 | split; [exact H2 | split; [exact (Hlow H2) |]]].
  split; [exact H3 | exact Hge].
Defined.

(** X14. [bright] applied twice.  On a foreground code below 30 (such as
    [none]) both revisions add 60 twice, so tesc.hpp's [bright] is not
    idempotent there; on a code from 30 to 89 the first call of tesc.h
    returns and the second call, on its result, throws.  For backgrounds the
    bounds are 40 and 99. *)
Theorem X14_bright_twice :
  (forall c : Z, 0 <= c < 30 ->
      tesc_hpp.bright_face (tesc_hpp.bright_face (Face c)) = Face (c + 120)
      /\ tesc_hpp.bright_face (tesc_hpp.bright_face (Face c))
         <> tesc_hpp.bright_face (Face c)
      /\ tesc_h.bright_face (Face c) = tesc_h.Return (Face (c + 60))
      /\ tesc_h.bright_face (Face (c + 60)) = tesc_h.Return (Face (c + 120)))
  /\ (forall c : Z, 30 <= c < 90 ->
      tesc_h.bright_face (Face c) = tesc_h.Return (Face (c + 60))
      /\ exists e, tesc_h.bright_face (Face (c + 60)) = tesc_h.Throw e)
  /\ (forall c : Z, 0 <= c < 40 ->
      tesc_hpp.bright_back (tesc_hpp.bright_back (Back c)) = Back (c + 120)
      /\ tesc_hpp.bright_back (tesc_hpp.bright_back (Back c))
         <> tesc_hpp.bright_back (Back c)
      /\ tesc_h.bright_back (Back c) = tesc_h.Return (Back (c + 60))
      /\ tesc_h.bright_back (Back (c + 60)) = tesc_h.Return (Back (c + 120)))
  /\ (forall c : Z, 40 <= c < 100 ->
      tesc_h.bright_back (Back c) = tesc_h.Return (Back (c + 60))
      /\ exists e, tesc_h.bright_back (Back (c + 60)) = tesc_h.Throw e).
Proof.
  assert (F : forall c, 0 <= c < 256 -> face_ok (Face c)) by (intros; assumption).
  assert (B : forall c, 0 <= c < 256 -> back_ok (Back c)) by (intros; assumption).
  repeat apply conj.
  - intros c Hc.
    rewrite (bright_face_hpp_below c) by (try apply F; lia).
    rewrite (bright_face_hpp_below (c + 60)) by (try apply F; lia).
    rewrite (bright_face_h_below c) by (try apply F; lia).
    rewrite (bright_face_h_below (c + 60)) by (try apply F; lia).
    replace (c + 60 + 60) with (c + 120) by lia.
    repeat split. intros [= E]. lia.
  - intros c Hc.
    rewrite (bright_face_h_below c) by (try apply F; lia).
    split; [reflexivity |].
    eexists. apply bright_face_h_above; [apply F |]; lia.
  - intros c Hc.
    rewrite (bright_back_hpp_below c) by (try apply B; lia).
    rewrite (bright_back_hpp_below (c + 60)) by (try apply B; lia).
    rewrite (bright_back_h_below c) by (try apply B; lia).
    rewrite (bright_back_h_below (c + 60)) by (try apply B; lia).
    replace (c + 60 + 60) with (c + 120) by lia.
    repeat split. intros [= E]. lia.
  - intros c Hc.
    rewrite (bright_back_h_below c) by (try apply B; lia).
    split; [reflexivity |].
    eexists. apply bright_back_h_above; [apply B |]; lia.
Qed.

Lemma X14_bright_twice_witness :
  0 <= 0 < 30
  /\ tesc_hpp.bright_face (tesc_hpp.bright_face (Face 0)) = Face (0 + 120)
  /\ 30 <= 31 < 90
  /\ tesc_h.bright_face (Face 31) = tesc_h.Return (Face (31 + 60)).
Proof.
  assert (H1 : 0 <= 0 < 30) by lia.
  assert (H2 : 30 <= 31 < 90) by lia.
  destruct X14_bright_twice as (Ha & Hb & _).
  split; [exact H1 | split; [exact (proj1 (Ha 0 H1)) |]].
  split; [exact H2 | exact (proj1 (Hb 31 H2))].
Defined.

(** ** The two revisions side by side *)

(** X15. The two revisions write the same bytes: for [font(st)] on every
    style, for [color(f | b)] on codes that fit [uint8_t], and for a color
    constructed from one component when the other static cell of tesc.hpp
    holds [none]. *)
Theorem X15_revisions_agree :
  forall (os : ostream) (st : style) (f : face) (b : back)
         (g : tesc_hpp.statics),
    face_ok f -> back_ok b ->
    tesc_h.put_font os (tesc_h.font_of_style st) = fst (write_font_hpp os st g)
    /\ write_color_h os f b = fst (write_color_hpp os f b g)
    /\ (tesc_hpp._bg_color g = back_.none ->
        tesc_h.put_color os (tesc_h.color_of_face f) = fst (write_face_hpp os f g))
    /\ (tesc_hpp._fg_color g = face_.none ->
        tesc_h.put_color os (tesc_h.color_of_back b) = fst (write_back_hpp os b g)).
Proof.
  intros os st f b g Hf Hb.
  assert (Hn : is_uint8 0) by (unfold is_uint8; lia).
  split; [| split; [| split]].
  - rewrite put_font_h_codes.
    change (write_font_hpp os st g)
      with (tesc_hpp.put_font os tesc_hpp.Font
              (tesc_hpp.Statics (tesc_hpp._fg_color g) (tesc_hpp._bg_color g) st)).
    rewrite put_font_hpp_codes. reflexivity.
  - unfold write_color_h. rewrite put_color_pair_h by assumption.
    symmetry. apply write_color_hpp_sequence; assumption.
  - intros Hg.
    change (write_face_hpp os f g)
      with (tesc_hpp.put_color os tesc_hpp.Color
              (tesc_hpp.Statics f (tesc_hpp._bg_color g) (tesc_hpp._style g))).
    rewrite Hg, put_color_stored_hpp by assumption.
    rewrite put_color_face_h by assumption.
    simpl fst. simpl tesc_hpp._fg_color. simpl tesc_hpp._bg_color.
    change (back_code back_.none) with 0.
    unfold color_sequence.
    destruct (face_code f =? 0); reflexivity.
  - intros Hg.
    change (write_back_hpp os b g)
      with (tesc_hpp.put_color os tesc_hpp.Color
              (tesc_hpp.Statics (tesc_hpp._fg_color g) b (tesc_hpp._style g))).
    rewrite Hg, put_color_stored_hpp by assumption.
    change (tesc_h.color_of_back b) with (tesc_h.color_of_face (Face (back_code b))).
    rewrite put_color_face_h by exact Hb.
    reflexivity.
Qed.

Lemma X15_revisions_agree_witness :
  face_ok face_.red /\ back_ok back_.green
  /\ write_color_h "" face_.red back_.green
     = fst (write_color_hpp "" face_.red back_.green tesc_hpp.initial).
Proof.
  assert (H1 : face_ok face_.red) by (unfold face_ok, is_uint8; simpl; lia).
  assert (H2 : back_ok back_.green) by (unfold back_ok, is_uint8; simpl; lia).
  split; [exact H1 | split; [exact H2 |]].
  exact (proj1 (proj2 (X15_revisions_agree "" style_.normal face_.red
                         back_.green tesc_hpp.initial H1 H2))).
Defined.

(** ** The sort, on its own *)

(** X16. The three compare-and-swaps of [operator <<] on [font] sort any
    three integers: the result is a permutation of the input in ascending
    order; an ascending input is left as it is and sorting twice is
    sorting once. *)
Theorem X16_sort_modif :
  forall a b c : Z,
    let r := sort_modif [a; b; c] in
    Permutation [a; b; c] r
    /\ List.length r = 3%nat
    /\ r.[0] <= r.[1] <= r.[2]
    /\ (a <= b <= c -> r = [a; b; c])
    /\ sort_modif r = r.
Proof.
  intros a b c r.
  destruct (sort_modif_sorts a b c) as (x & y & z & Hs & Hp & Hle).
  assert (Hfix : forall u v w, u <= v <= w -> sort_modif [u; v; w] = [u; v; w]).
  { intros u v w Huvw. unfold sort_modif, swap, at_. simpl.
    rewrite (Z.gtb_ltb u v). destruct (Z.ltb_spec v u); [lia |].
    simpl. rewrite (Z.gtb_ltb v w). destruct (Z.ltb_spec w v); [lia |].
    reflexivity. }
  subst r. rewrite Hs. repeat split.
  - exact Hp.
  - unfold at_; simpl; lia.
  - unfold at_; simpl; lia.
  - intros Habc. rewrite <- Hs. apply Hfix. exact Habc.
  - apply Hfix. exact Hle.
Qed.

Lemma X16_sort_modif_witness :
  22 <= 23 <= 24 /\ sort_modif [22; 23; 24] = [22; 23; 24].
Proof.
  assert (H : 22 <= 23 <= 24) by lia.
  split; [exact H |].
  exact (proj1 (proj2 (proj2 (proj2 (X16_sort_modif 22 23 24)))) H).
Defined.

Lemma X12_test_overlaps_witness :
  tesc_hpp._style (tesc_hpp.Statics face_.none back_.none style_.bold)
  = tesc_h._style (tesc_h.font_of_style style_.bold)
  /\ uint8_t (style_code style_.bold) <> 0
  /\ fst (tesc_hpp.test_style style_.bold
            (tesc_hpp.Statics face_.none back_.none style_.bold)) = true
  /\ tesc_h._test (tesc_h.font_of_style style_.bold) style_.bold = true.
Proof.
  assert (H1 : tesc_hpp._style (tesc_hpp.Statics face_.none back_.none style_.bold)
               = tesc_h._style (tesc_h.font_of_style style_.bold)) by reflexivity.
  assert (H2 : uint8_t (style_code style_.bold) <> 0) by discriminate.
  assert (H3 : fst (tesc_hpp.test_style style_.bold
            (tesc_hpp.Statics face_.none back_.none style_.bold)) = true)
    by reflexivity.
  repeat (split; [assumption |]).
  exact (proj1 (proj2 (proj2 (X12_test_overlaps
                                (tesc_h.font_of_style style_.bold) style_.bold)))
           _ H1 H2 H3).
Defined.

(** ** Reading the flags back from the bytes *)

Lemma append_inv_head (a b c : string) : (a ++ b = a ++ c)%string -> b = c.
Proof. induction a as [| x a IH]; simpl; [auto | intros [= H]; auto]. Qed.

Ltac eval_sort_modif :=
  repeat match goal with
    | |- context [sort_modif ?l] =>
        let r := eval vm_compute in (sort_modif l) in
        change (sort_modif l) with r
    end.

(** The sequence written for a style determines its three flags. *)
Lemma put_modif_codes_inj (os : ostream) (s s' : style) :
  put_modif os (sort_modif (attribute_codes s))
  = put_modif os (sort_modif (attribute_codes s'))
  <-> has_flag s 0 = has_flag s' 0
      /\ has_flag s 1 = has_flag s' 1
      /\ has_flag s 2 = has_flag s' 2.
Proof.
  unfold attribute_codes.
  destruct (has_flag s 0), (has_flag s 1), (has_flag s 2),
    (has_flag s' 0), (has_flag s' 1), (has_flag s' 2);
    eval_sort_modif; rewrite !put_modif_three;
    (split;
     [ intros H; apply append_inv_head in H; vm_compute in H;
       first [ discriminate H | repeat split ]
     | intros (H0 & H1 & H2);
       first [ discriminate H0 | discriminate H1 | discriminate H2 | reflexivity ] ]).
Qed.

(** X17. The bytes written for a font identify its style up to the three
    flags: two styles give the same output exactly when they agree on
    bold, italic and underline.  Bits of the style above the third never
    show. *)
Theorem X17_font_output_decodes :
  forall (os : ostream) (s s' : style) (g : tesc_hpp.statics),
    (tesc_h.put_font os (tesc_h.font_of_style s)
     = tesc_h.put_font os (tesc_h.font_of_style s')
     <-> has_flag s 0 = has_flag s' 0
         /\ has_flag s 1 = has_flag s' 1
         /\ has_flag s 2 = has_flag s' 2)
    /\ (fst (write_font_hpp os s g) = fst (write_font_hpp os s' g)
        <-> has_flag s 0 = has_flag s' 0
            /\ has_flag s 1 = has_flag s' 1
            /\ has_flag s 2 = has_flag s' 2)
    /\ tesc_h.put_font os (tesc_h.font_of_style (Style (style_code s mod 8)))
       = tesc_h.put_font os (tesc_h.font_of_style s).
Proof.
  intros os s s' g. split; [| split].
  - rewrite !put_font_h_codes. simpl tesc_h._style. apply put_modif_codes_inj.
  - change (write_font_hpp os s g)
      with (tesc_hpp.put_font os tesc_hpp.Font
              (tesc_hpp.Statics (tesc_hpp._fg_color g) (tesc_hpp._bg_color g) s)).
    change (write_font_hpp os s' g)
      with (tesc_hpp.put_font os tesc_hpp.Font
              (tesc_hpp.Statics (tesc_hpp._fg_color g) (tesc_hpp._bg_color g) s')).
    rewrite !put_font_hpp_codes. simpl fst. simpl tesc_hpp._style.
    apply put_modif_codes_inj.
  - rewrite !put_font_h_codes. simpl tesc_h._style.
    apply put_modif_codes_inj.
    unfold has_flag. simpl style_code. change 8 with (2 ^ 3).
    rewrite !Z.mod_pow2_bits_low by lia.
    repeat split.
Qed.

(** ** Reading the codes back from the bytes *)

Lemma string_of_uint_digits (d : Decimal.uint) :
  digits_only (NilEmpty.string_of_uint d) = true.
Proof. induction d; simpl; auto. Qed.

Lemma show_int_digits (z : Z) :
  0 <= z -> digits_only (show_int z) = true /\ show_int z <> "".
Proof.
  intros Hz. unfold show_int.
  destruct z as [| p | p]; [split; [reflexivity | discriminate] | | lia].
  simpl. unfold NilZero.string_of_uint.
  destruct (Pos.to_uint p) eqn:E;
    try (split; [simpl; apply string_of_uint_digits | discriminate]).
  split; [reflexivity | discriminate].
Qed.

(** A run of digits ends where the first other character stands. *)
Lemma digits_split (d1 d2 r1 r2 : string) (c1 c2 : ascii) :
  digits_only d1 = true -> digits_only d2 = true ->
  is_digit c1 = false -> is_digit c2 = false ->
  (d1 ++ String c1 r1 = d2 ++ String c2 r2)%string ->
  d1 = d2 /\ c1 = c2 /\ r1 = r2.
Proof.
  revert d2. induction d1 as [| x d1 IH]; intros [| y d2] H1 H2 N1 N2 E;
    simpl in *.
  - injection E as -> ->. repeat split.
  - injection E as -> _. apply andb_true_iff in H2. destruct H2 as [H2 _].
    congruence.
  - injection E as -> _. apply andb_true_iff in H1. destruct H1 as [H1 _].
    congruence.
  - injection E as -> E. apply andb_true_iff in H1, H2.
    destruct (IH d2 (proj2 H1) (proj2 H2) N1 N2 E) as (-> & -> & ->).
    repeat split.
Qed.

(** The parameters followed by [m], as a run of digits, one character and
    the rest. *)
Lemma sgr_params_head (c : Z) (rest : list Z) :
  exists (sep : ascii) (r : string),
    (sgr_params (c :: rest) ++ "m" = show_int c ++ String sep r)%string
    /\ is_digit sep = false
    /\ (rest = [] -> sep = "m"%char /\ r = "")
    /\ (rest <> [] -> sep = ";"%char /\ r = (sgr_params rest ++ "m")%string).
Proof.
  destruct rest as [| c' rest].
  - exists "m"%char, "". simpl. repeat split; congruence.
  - exists ";"%char, (sgr_params (c' :: rest) ++ "m")%string.
    change (sgr_params (c :: c' :: rest))
      with (show_int c ++ ";" ++ sgr_params (c' :: rest))%string.
    rewrite !append_assoc. repeat split; congruence.
Qed.

(** A sequence of non-negative codes can be read back from its bytes. *)
Lemma sgr_params_inj (l l' : list Z) :
  Forall (fun z => 0 <= z) l -> Forall (fun z => 0 <= z) l' ->
  (sgr_params l ++ "m" = sgr_params l' ++ "m")%string -> l = l'.
Proof.
  intros Hl. revert l'. induction Hl as [| c rest Hc Hrest IH];
    intros l' Hl' E; destruct Hl' as [| c' rest' Hc' Hrest'].
  - reflexivity.
  - exfalso.
    destruct (sgr_params_head c' rest') as (sep & r & E' & Hsep & _).
    rewrite E' in E. change (sgr_params [] ++ "m")%string with ("" ++ String "m" "")%string in E.
    destruct (show_int_digits c' Hc') as [Hd Hne].
    destruct (digits_split "" (show_int c') "" r "m" sep eq_refl Hd eq_refl Hsep E)
      as (Hx & _). congruence.
  - exfalso.
    destruct (sgr_params_head c rest) as (sep & r & E' & Hsep & _).
    rewrite E' in E. change (sgr_params [] ++ "m")%string with ("" ++ String "m" "")%string in E.
    destruct (show_int_digits c Hc) as [Hd Hne].
    symmetry in E.
    destruct (digits_split "" (show_int c) "" r "m" sep eq_refl Hd eq_refl Hsep E)
      as (Hx & _). congruence.
  - destruct (sgr_params_head c rest) as (sep & r & E1 & Hsep & Hnil & Hcons).
    destruct (sgr_params_head c' rest') as (sep' & r' & E2 & Hsep' & Hnil' & Hcons').
    rewrite E1, E2 in E.
    destruct (show_int_digits c Hc) as [Hd _].
    destruct (show_int_digits c' Hc') as [Hd' _].
    destruct (digits_split _ _ _ _ _ _ Hd Hd' Hsep Hsep' E) as (Hs & Hsp & Hr).
    apply show_int_inj in Hs. subst c'. f_equal.
    destruct rest as [| x rest]; destruct rest' as [| x' rest'].
    + reflexivity.
    + exfalso. destruct (Hnil eq_refl) as [-> _].
      destruct (Hcons' ltac:(discriminate)) as [-> _]. discriminate Hsp.
    + exfalso. destruct (Hnil' eq_refl) as [-> _].
      destruct (Hcons ltac:(discriminate)) as [-> _]. discriminate Hsp.
    + apply IH; [exact Hrest' |].
      destruct (Hcons ltac:(discriminate)) as [_ ->].
      destruct (Hcons' ltac:(discriminate)) as [_ ->]. exact Hr.
Qed.

Lemma color_sequence_inj (f b f' b' : Z) :
  0 <= f -> 0 <= b -> 0 <= f' -> 0 <= b' ->
  color_sequence f b = color_sequence f' b' ->
  filter truthy [f; b] = filter truthy [f'; b'].
Proof.
  intros Hf Hb Hf' Hb' E. rewrite !color_sequence_sgr in E. unfold sgr in E.
  apply append_inv_head in E.
  apply sgr_params_inj; [| | exact E];
    apply Forall_forall; intros z Hz; apply filter_In in Hz;
    destruct Hz as [Hin _]; simpl in Hin;
    destruct Hin as [<- | [<- | []]]; assumption.
Qed.

(** X18. The bytes written for a color identify its non-zero codes: for
    codes that fit [uint8_t], [color(f | b)] and [color(f' | b')] give the
    same output exactly when the non-zero codes among [f, b] are, in order,
    the non-zero codes among [f', b'], in both revisions. *)
Theorem X18_color_output_decodes :
  forall (os : ostream) (f f' : face) (b b' : back) (g : tesc_hpp.statics),
    face_ok f -> back_ok b -> face_ok f' -> back_ok b' ->
    (write_color_h os f b = write_color_h os f' b'
     <-> filter truthy [face_code f; back_code b]
         = filter truthy [face_code f'; back_code b'])
    /\ (fst (write_color_hpp os f b g) = fst (write_color_hpp os f' b' g)
        <-> filter truthy [face_code f; back_code b]
            = filter truthy [face_code f'; back_code b']).
Proof.
  intros os f f' b b' g Hf Hb Hf' Hb'.
  unfold write_color_h.
  rewrite !put_color_pair_h, !write_color_hpp_sequence by assumption.
  assert (D : (os ++ color_sequence (face_code f) (back_code b)
               = os ++ color_sequence (face_code f') (back_code b'))%string
              <-> filter truthy [face_code f; back_code b]
                  = filter truthy [face_code f'; back_code b']).
  { split.
    - intros E. apply append_inv_head in E.
      apply color_sequence_inj; try exact E;
        (apply Hf || apply Hb || apply Hf' || apply Hb').
    - intros E. rewrite !color_sequence_sgr, E. reflexivity. }
  split; exact D.
Qed.

Lemma X18_color_output_decodes_witness :
  face_ok face_.red /\ back_ok back_.none /\ face_ok face_.red /\ back_ok back_.green
  /\ write_color_h "" face_.red back_.none <> write_color_h "" face_.red back_.green.
Proof.
  assert (H1 : face_ok face_.red) by (unfold face_ok, is_uint8; simpl; lia).
  assert (H2 : back_ok back_.none) by (unfold back_ok, is_uint8; simpl; lia).
  assert (H3 : back_ok back_.green) by (unfold back_ok, is_uint8; simpl; lia).
  repeat (split; [assumption |]).
  intros E.
  apply (proj1 (X18_color_output_decodes "" face_.red face_.red back_.none
                  back_.green tesc_hpp.initial H1 H2 H1 H3)) in E.
  discriminate E.
Defined.

(** X19. Among [none], the eight named colors and their bright versions,
    foreground codes and background codes never coincide, so the bytes
    written for [color(f | b)] identify both [f] and [b], in both
    revisions. *)
Theorem X19_named_colors_decode :
  forall (os : ostream) (f f' : face) (b b' : back) (g : tesc_hpp.statics),
    api_face f -> api_back b -> api_face f' -> api_back b' ->
    (write_color_h os f b = write_color_h os f' b' -> f = f' /\ b = b')
    /\ (fst (write_color_hpp os f b g) = fst (write_color_hpp os f' b' g) ->
        f = f' /\ b = b').
Proof.
  intros os [x] [x'] [y] [y'] g Hf Hb Hf' Hb'.
  unfold api_face, api_back in *. simpl in Hf, Hb, Hf', Hb'.
  assert (Fx : face_ok (Face x)) by (unfold face_ok, is_uint8; simpl; lia).
  assert (Fy : back_ok (Back y)) by (unfold back_ok, is_uint8; simpl; lia).
  assert (Fx' : face_ok (Face x')) by (unfold face_ok, is_uint8; simpl; lia).
  assert (Fy' : back_ok (Back y')) by (unfold back_ok, is_uint8; simpl; lia).
  unfold write_color_h.
  rewrite !put_color_pair_h, !write_color_hpp_sequence by assumption.
  simpl face_code. simpl back_code.
  assert (D : (os ++ color_sequence x y = os ++ color_sequence x' y')%string ->
              Face x = Face x' /\ Back y = Back y').
  { intros E. apply append_inv_head in E.
    apply color_sequence_inj in E; try lia.
    unfold truthy in E. simpl in E.
    destruct (Z.eqb_spec x 0), (Z.eqb_spec y 0),
      (Z.eqb_spec x' 0), (Z.eqb_spec y' 0);
      simpl in E; try discriminate E;
      try (injection E as E1 E2); try (injection E as E1);
      split; f_equal; lia. }
  split; exact D.
Qed.

Lemma X19_named_colors_decode_witness :
  api_face face_.red /\ api_back back_.green
  /\ api_face face_.green /\ api_back back_.red
  /\ write_color_h "" face_.red back_.green
     <> write_color_h "" face_.green back_.red.
Proof.
  assert (H1 : api_face face_.red) by (unfold api_face; simpl; lia).
  assert (H2 : api_back back_.green) by (unfold api_back; simpl; lia).
  assert (H3 : api_face face_.green) by (unfold api_face; simpl; lia).
  assert (H4 : api_back back_.red) by (unfold api_back; simpl; lia).
  repeat (split; [assumption |]).
  intros E.
  destruct (proj1 (X19_named_colors_decode "" face_.red face_.green back_.green
                     back_.red tesc_hpp.initial H1 H2 H3 H4) E) as [E1 _].
  discriminate E1.
Defined.

(** ** Joined styles and the two channels *)


(** X21. In tesc.hpp colors and fonts do not interfere: constructing a
    font changes the style cell only and leaves what a color writes as it
    was, and constructing a color, from a pair or from one component,
    leaves what a font writes as it was. *)
Theorem X21_channels_independent :
  forall (os : ostream) (st : style) (f : face) (b : back)
         (c : tesc_hpp.color) (ft : tesc_hpp.font) (g : tesc_hpp.statics),
    snd (tesc_hpp.font_of_style st g)
    = tesc_hpp.Statics (tesc_hpp._fg_color g) (tesc_hpp._bg_color g) st
    /\ fst (tesc_hpp.bind (tesc_hpp.font_of_style st)
                          (fun _ => tesc_hpp.put_color os c) g)
       = fst (tesc_hpp.put_color os c g)
    /\ fst (tesc_hpp.bind (tesc_hpp.color_of_pair (tesc_hpp.or_face_back f b))
                          (fun _ => tesc_hpp.put_font os ft) g)
       = fst (tesc_hpp.put_font os ft g)
    /\ fst (tesc_hpp.bind (tesc_hpp.color_of_face f)
                          (fun _ => tesc_hpp.put_font os ft) g)
       = fst (tesc_hpp.put_font os ft g)
    /\ fst (tesc_hpp.bind (tesc_hpp.color_of_back b)
                          (fun _ => tesc_hpp.put_font os ft) g)
       = fst (tesc_hpp.put_font os ft g).
Proof.
  intros os st f b c ft g. destruct ft.
  split; [reflexivity | split; [reflexivity |]].
  repeat split.
  - change (tesc_hpp.bind (tesc_hpp.color_of_pair (tesc_hpp.or_face_back f b))
              (fun _ => tesc_hpp.put_font os tesc_hpp.Font) g)
      with (tesc_hpp.put_font os tesc_hpp.Font
              (tesc_hpp.Statics f b (tesc_hpp._style g))).
    rewrite !put_font_hpp_codes. reflexivity.
  - change (tesc_hpp.bind (tesc_hpp.color_of_face f)
              (fun _ => tesc_hpp.put_font os tesc_hpp.Font) g)
      with (tesc_hpp.put_font os tesc_hpp.Font
              (tesc_hpp.Statics f (tesc_hpp._bg_color g) (tesc_hpp._style g))).
    rewrite !put_font_hpp_codes. reflexivity.
  - change (tesc_hpp.bind (tesc_hpp.color_of_back b)
              (fun _ => tesc_hpp.put_font os tesc_hpp.Font) g)
      with (tesc_hpp.put_font os tesc_hpp.Font
              (tesc_hpp.Statics (tesc_hpp._fg_color g) b (tesc_hpp._style g))).
    rewrite !put_font_hpp_codes. reflexivity.
Qed.
